(** * Order ingestion and scan tracking of [backend/app.py]

    A shallow embedding of the in-memory order store of the Flask backend:
    the row loop of [upload_file], the scan handler [scan_order], the
    listing [get_orders], the lookup [get_order] and the audit log
    [add_log].

    - A Python [dict] is an association list in insertion order whose
      assignment overwrites in place or appends ([dict_set]).
    - The two globals [orders_db] and [logs_db] are threaded explicitly as a
      [store].
    - The values read from the environment ([uuid.uuid4()], the renderings of
      [JalaliDatetime.now()]) are passed in as a [stamp].
    - A spreadsheet cell is [None], an [int], a binary64 [float] or a [str].
      Floats are the [spec_float] of the standard library, so [float(x)],
      [int(x)] and [str(x)] are computed with exact integer arithmetic.
      Strings are byte strings: decimal digits and blanks outside ASCII,
      which Python's [int] and [float] also accept, are not recognised by
      the parsers below; booleans and dates in cells are not represented. *)

From Stdlib Require Import ZArith List String Ascii Bool Lia.
From Stdlib Require Import SpecFloat.
Import ListNotations.

Local Open Scope string_scope.
Local Open Scope Z_scope.

(** ** Python values met in a data frame row *)

Module Py.

(** What a statement of the loop body can raise. *)
Inductive exn : Type :=
  | ValueError_int (s : string)      (* int(s): invalid literal *)
  | ValueError_float (s : string)    (* float(s): could not convert *)
  | ValueError_nan                   (* int(nan) *)
  | OverflowError_inf                (* int(inf), int(-inf) *)
  | OverflowError_float (z : Z)      (* float(z): int too large *)
  | TypeError_None                   (* int(None), float(None) *)
  | KeyError (k : string)            (* d[k] for a missing key *)
  | Raised (what : string).          (* raised while saving or reading the file *)

Inductive cell : Type :=
  | CNone
  | CInt (z : Z)
  | CFloat (f : spec_float)
  | CStr (s : string).

(** [pd.notna(x)] on a scalar. *)
Definition notna (x : cell) : bool :=
  match x with
  | CNone => false
  | CFloat S754_nan => false
  | _ => true
  end.

(** *** Characters and digits *)

Definition code (c : ascii) : Z := Z.of_N (N_of_ascii c).

Definition digit_val (c : ascii) : option Z :=
  let n := code c in
  if (48 <=? n) && (n <=? 57) then Some (n - 48) else None.

Definition is_space (c : ascii) : bool :=
  let n := code c in ((9 <=? n) && (n <=? 13)) || (n =? 32).

Definition lower (c : ascii) : ascii :=
  let n := code c in
  if (65 <=? n) && (n <=? 90) then ascii_of_N (Z.to_N (n + 32)) else c.

Fixpoint lstrip (s : list ascii) : list ascii :=
  match s with
  | c :: s' => if is_space c then lstrip s' else s
  | [] => []
  end.

Definition strip (s : list ascii) : list ascii :=
  rev (lstrip (rev (lstrip s))).

(** A run of digits in which single underscores may separate digits:
    accumulated value, number of digits read, and the unread rest. *)
Fixpoint digits_tail (acc : Z) (n : Z) (s : list ascii) : Z * Z * list ascii :=
  match s with
  | c :: s' =>
      match digit_val c with
      | Some d => digits_tail (10 * acc + d) (n + 1) s'
      | None =>
          if Ascii.eqb c "_" then
            match s' with
            | c2 :: s'' =>
                match digit_val c2 with
                | Some d => digits_tail (10 * acc + d) (n + 1) s''
                | None => (acc, n, s)
                end
            | [] => (acc, n, s)
            end
          else (acc, n, s)
      end
  | [] => (acc, n, s)
  end.

Definition digitpart (acc : Z) (s : list ascii) : option (Z * Z * list ascii) :=
  match s with
  | c :: s' =>
      match digit_val c with
      | Some d => Some (digits_tail (10 * acc + d) 1 s')
      | None => None
      end
  | [] => None
  end.

(** An optional sign: [true] for a minus. *)
Definition sign (s : list ascii) : bool * list ascii :=
  match s with
  | c :: s' =>
      if Ascii.eqb c "-" then (true, s')
      else if Ascii.eqb c "+" then (false, s')
      else (false, s)
  | [] => (false, s)
  end.

Definition signed (neg : bool) (z : Z) : Z := if neg then - z else z.

(** *** [int(s)] for a string, base 10 *)

Definition int_of_str (s : string) : exn + Z :=
  let (neg, body) := sign (strip (list_ascii_of_string s)) in
  match digitpart 0 body with
  | Some (v, _, []) => inr (signed neg v)
  | _ => inl (ValueError_int s)
  end.

(** *** Decimal rendering of an integer: [str(z)] *)

Definition digit_char (d : Z) : ascii := ascii_of_N (Z.to_N (48 + d)).

Fixpoint digits_of_pos (fuel : nat) (z : Z) (acc : list ascii) : list ascii :=
  match fuel with
  | O => acc
  | S fuel' =>
      let acc' := digit_char (z mod 10) :: acc in
      if z <? 10 then acc' else digits_of_pos fuel' (z / 10) acc'
  end.

(** The decimal digits of a natural number, most significant first; the
    binary size bounds the number of digits. *)
Definition digits_of (z : Z) : list ascii :=
  digits_of_pos (S (Z.to_nat (Z.log2 z))) z [].

Definition str_of_int (z : Z) : string :=
  let body := string_of_list_ascii (digits_of (Z.abs z)) in
  if z <? 0 then ("-" ++ body)%string else body.

(** *** [f"{z:,}"]: decimal with a comma between groups of three digits *)

Fixpoint group3 (rev_digits : list ascii) : list ascii :=
  match rev_digits with
  | a :: b :: c :: ((_ :: _) as more) => a :: b :: c :: "," %char :: group3 more
  | short => short
  end.

Definition format_grouped (z : Z) : string :=
  let body := string_of_list_ascii (rev (group3 (rev (digits_of (Z.abs z))))) in
  if z <? 0 then ("-" ++ body)%string else body.

(** *** binary64 *)

(** The binary64 nearest to [m * 2^e], ties to even. *)
Definition b64 (m e : Z) : spec_float := binary_normalize 53 1024 m e false.

(** The binary64 nearest to [m * 10^e10] for [m >= 0], ties to even. For
    a negative decimal exponent the quotient is taken with more than 64
    bits and one more bit records whether the division left a remainder. *)
Definition float_of_decimal (neg : bool) (m e10 : Z) : spec_float :=
  if m =? 0 then S754_zero neg
  else
    let f :=
      if 0 <=? e10 then b64 (m * 10 ^ e10) 0
      else
        let d := 10 ^ (- e10) in
        let k := Z.max 0 (65 + Z.log2 d - Z.log2 m) in
        let q := (m * 2 ^ k) / d in
        let sticky := if (m * 2 ^ k) mod d =? 0 then 0 else 1 in
        b64 (2 * q + sticky) (- k - 1)
    in
    if neg then SFopp f else f.

(** [float(z)] for an integer. *)
Definition float_of_int (z : Z) : exn + spec_float :=
  match b64 z 0 with
  | S754_infinity _ => inl (OverflowError_float z)
  | f => inr f
  end.

(** [int(f)] for a float: truncation toward zero. *)
Definition int_of_float (f : spec_float) : exn + Z :=
  match f with
  | S754_zero _ => inr 0
  | S754_infinity _ => inl OverflowError_inf
  | S754_nan => inl ValueError_nan
  | S754_finite s m e =>
      inr (signed s (if 0 <=? e then Zpos m * 2 ^ e else Zpos m / 2 ^ (- e)))
  end.

(** *** [float(s)] for a string *)

Definition exponent_part (s : string) (neg : bool) (m nfrac : Z) (rest : list ascii)
  : exn + spec_float :=
  match rest with
  | [] => inr (float_of_decimal neg m (- nfrac))
  | c :: rest' =>
      if Ascii.eqb (lower c) "e" then
        let (eneg, digits) := sign rest' in
        match digitpart 0 digits with
        | Some (ev, _, []) => inr (float_of_decimal neg m (signed eneg ev - nfrac))
        | _ => inl (ValueError_float s)
        end
      else inl (ValueError_float s)
  end.

Definition float_of_str (s : string) : exn + spec_float :=
  let (neg, body) := sign (strip (list_ascii_of_string s)) in
  let word := string_of_list_ascii (map lower body) in
  if String.eqb word "inf" || String.eqb word "infinity" then inr (S754_infinity neg)
  else if String.eqb word "nan" then inr S754_nan
  else
    match digitpart 0 body with
    | Some (ip, _, "."%char :: rest) =>
        match digitpart ip rest with
        | Some (m, nfrac, rest') => exponent_part s neg m nfrac rest'
        | None => exponent_part s neg ip 0 rest
        end
    | Some (ip, _, rest) => exponent_part s neg ip 0 rest
    | None =>
        match body with
        | "."%char :: rest =>
            match digitpart 0 rest with
            | Some (m, nfrac, rest') => exponent_part s neg m nfrac rest'
            | None => inl (ValueError_float s)
            end
        | _ => inl (ValueError_float s)
        end
    end.

(** *** [str(f)] for a float: the shortest decimal that reads back as [f] *)

(** Whether a float is the positive number [num / den]. *)
Definition is_ratio (f : spec_float) (num den : Z) : bool :=
  match f with
  | S754_finite false m e =>
      if 0 <=? e then Zpos m * 2 ^ e * den =? num else Zpos m * den =? num * 2 ^ (- e)
  | _ => false
  end.

(** The least [j >= 1] with [num * 10^j >= den], for [0 < num < den]. *)
Fixpoint first_digit_shift (fuel : nat) (num den j : Z) : Z :=
  match fuel with
  | O => j
  | S fuel' =>
      if den <=? num * 10 ^ j then j else first_digit_shift fuel' num den (j + 1)
  end.

(** The position [k] of the decimal point: [10^(k-1) <= num/den < 10^k]. *)
Definition decimal_point (num den : Z) : Z :=
  if den <=? num then Z.of_nat (List.length (digits_of (num / den)))
  else 1 - first_digit_shift (Z.to_nat (Z.log2 den) + 1) num den 1.

(** With [n] significant digits: the candidate (an integer to be scaled
    by [10^(k-n)]) that reads back as [num/den], the nearer one when both
    neighbours do. *)
Definition candidate (num den k n : Z) : option Z :=
  let N := if 0 <=? n - k then num * 10 ^ (n - k) else num in
  let D := if 0 <=? n - k then den else den * 10 ^ (k - n) in
  let lo := N / D in
  let r := N mod D in
  if r =? 0 then Some lo
  else
    let ok_lo := is_ratio (float_of_decimal false lo (k - n)) num den in
    let ok_hi := is_ratio (float_of_decimal false (lo + 1) (k - n)) num den in
    match ok_lo, ok_hi with
    | true, true =>
        if 2 * r <? D then Some lo
        else if D <? 2 * r then Some (lo + 1)
        else Some (if Z.even lo then lo else lo + 1)
    | true, false => Some lo
    | false, true => Some (lo + 1)
    | false, false => None
    end.

Fixpoint shortest (fuel : nat) (num den k n : Z) : Z * Z :=
  match fuel with
  | O => ((if 0 <=? n - k then num * 10 ^ (n - k) / den else num / (den * 10 ^ (k - n))), n)
  | S fuel' =>
      match candidate num den k n with
      | Some c => (c, n)
      | None => shortest fuel' num den k (n + 1)
      end
  end.

Fixpoint drop_zeros (rev_digits : list ascii) : list ascii :=
  match rev_digits with
  | c :: more => if Ascii.eqb c "0" then drop_zeros more else rev_digits
  | [] => []
  end.

Definition zeros (n : Z) : string :=
  string_of_list_ascii (repeat "0"%char (Z.to_nat n)).

Definition two_digits (z : Z) : string :=
  if z <? 10 then "0" ++ str_of_int z else str_of_int z.

(** The layout of [repr]: plain notation while the decimal point lies in
    [-4 < decpt <= 16], exponent notation otherwise. *)
Definition layout (digits : list ascii) (decpt : Z) : string :=
  let len := Z.of_nat (List.length digits) in
  if (-4 <? decpt) && (decpt <=? 16) then
    if decpt <=? 0 then "0." ++ zeros (- decpt) ++ string_of_list_ascii digits
    else if len <=? decpt then string_of_list_ascii digits ++ zeros (decpt - len) ++ ".0"
    else string_of_list_ascii (firstn (Z.to_nat decpt) digits) ++ "."
         ++ string_of_list_ascii (skipn (Z.to_nat decpt) digits)
  else
    let e := decpt - 1 in
    string_of_list_ascii (firstn 1 digits)
    ++ (if 1 <? len then "." ++ string_of_list_ascii (skipn 1 digits) else "")
    ++ "e" ++ (if e <? 0 then "-" else "+") ++ two_digits (Z.abs e).

Definition repr_finite (m : positive) (e : Z) : string :=
  let num := if 0 <=? e then Zpos m * 2 ^ e else Zpos m in
  let den := if 0 <=? e then 1 else 2 ^ (- e) in
  let k := decimal_point num den in
  let (c, n) := shortest 17 num den k 1 in
  let all := digits_of c in
  layout (rev (drop_zeros (rev all))) (k - n + Z.of_nat (List.length all)).

Definition str_of_float (f : spec_float) : string :=
  match f with
  | S754_nan => "nan"
  | S754_infinity s => if s then "-inf" else "inf"
  | S754_zero s => if s then "-0.0" else "0.0"
  | S754_finite s m e => (if s then "-" else "") ++ repr_finite m e
  end.

(** *** The built-ins on a cell *)

(** [str(x)] *)
Definition str (x : cell) : string :=
  match x with
  | CNone => "None"
  | CInt z => str_of_int z
  | CFloat f => str_of_float f
  | CStr s => s
  end.

(** [int(x)] *)
Definition int (x : cell) : exn + Z :=
  match x with
  | CNone => inl TypeError_None
  | CInt z => inr z
  | CFloat f => int_of_float f
  | CStr s => int_of_str s
  end.

(** [float(x)] *)
Definition float (x : cell) : exn + spec_float :=
  match x with
  | CNone => inl TypeError_None
  | CInt z => float_of_int z
  | CFloat f => inr f
  | CStr s => float_of_str s
  end.

End Py.

(** ** Python dictionaries

    Keys in insertion order. [d[k] = v] keeps the position of a key that is
    already present and appends a new key at the end. *)

Definition dict (V : Type) : Type := list (string * V).

Section Dict.
Context {V : Type}.

(** [d.get(k)] *)
Fixpoint dict_get (k : string) (d : dict V) : option V :=
  match d with
  | [] => None
  | (k', v) :: d' => if String.eqb k k' then Some v else dict_get k d'
  end.

(** [k in d] *)
Definition dict_mem (k : string) (d : dict V) : bool :=
  match dict_get k d with Some _ => true | None => false end.

(** [d[k] = v] *)
Fixpoint dict_set (k : string) (v : V) (d : dict V) : dict V :=
  match d with
  | [] => [(k, v)]
  | (k', v') :: d' =>
      if String.eqb k k' then (k, v) :: d' else (k', v') :: dict_set k v d'
  end.

Definition dict_keys (d : dict V) : list string := map fst d.
End Dict.

(** ** The data model *)

(** Text that may embed [str(e)] of a caught exception. *)
Inductive text : Type :=
  | Plain (s : string)
  | StrOf (prefix : string) (e : Py.exn).

(** A row of the data frame after the columns are renamed (lines 147-152):
    a column whose source label is not in the sheet holds [None] in every
    row. *)
Module Row.
Record t : Type := mk {
  OrderID : Py.cell;
  SKU : Py.cell;
  Title : Py.cell;
  Color : Py.cell;
  Quantity : Py.cell;
  Price : Py.cell;
  State : Py.cell;
  City : Py.cell;
  Payment : Py.cell
}.
End Row.

(** [orders_db[order_id]['SKUs'][sku]]; the key ['ScanTimestamp'] is absent
    until the first scan. *)
Module Item.
Record t : Type := mk {
  Title : Py.cell;
  Color : Py.cell;
  Quantity : Z;
  Scanned : Z;
  Price : string;
  ScanTimestamp : option string
}.

Definition set_Scanned (n : Z) (d : t) : t :=
  mk (Title d) (Color d) (Quantity d) n (Price d) (ScanTimestamp d).

Definition set_ScanTimestamp (ts : string) (d : t) : t :=
  mk (Title d) (Color d) (Quantity d) (Scanned d) (Price d) (Some ts).
End Item.

(** [orders_db[order_id]] *)
Module Order.
Record t : Type := mk {
  SKUs : dict Item.t;
  State : Py.cell;
  City : Py.cell;
  Payment : option string;
  Status : string
}.

Definition set_SKUs (skus : dict Item.t) (o : t) : t :=
  mk skus (State o) (City o) (Payment o) (Status o).
End Order.

Module Log.
Record entry : Type := mk {
  id : string;
  timestamp : string;
  message : string;
  status : string;
  details : option text
}.
End Log.

(** The two module-level globals. *)
Record store : Type := mkStore {
  orders_db : dict Order.t;
  logs_db : list Log.entry
}.

Definition empty_store : store := mkStore [] [].

(** What one call of [add_log] reads from its environment:
    [str(uuid.uuid4())] and [JalaliDatetime.now()] rendered to the second. *)
Record stamp : Type := mkStamp {
  uuid4 : string;
  now : string
}.

(** A JSON response with its HTTP status. *)
Record response (A : Type) : Type := mkResponse {
  http_status : Z;
  success : bool;
  message : text;
  data : option A
}.
Arguments mkResponse {A}.
Arguments http_status {A}.
Arguments success {A}.
Arguments message {A}.
Arguments data {A}.

(** One element of the list returned by [get_orders]. *)
Module View.
Record t : Type := mk {
  id : string;
  sku : string;
  title : Py.cell;
  color : Py.cell;
  quantity : Z;
  scanned : Z;
  status : string;
  price : string;
  state : Py.cell;
  city : Py.cell;
  payment : option string
}.
End View.

(** ** The operations *)

Definition add_log (w : stamp) (message status : string) (details : option text)
    (logs : list Log.entry) : list Log.entry :=
  let log_entry := Log.mk (uuid4 w) (now w) message status details in
  (logs ++ [log_entry])%list.

(** *** [get_orders] *)

Definition line_view (order_id : string) (order_data : Order.t)
    (sku : string) (details : Item.t) : View.t :=
  View.mk order_id sku
    (Item.Title details) (Item.Color details)
    (Item.Quantity details) (Item.Scanned details)
    (if Item.Quantity details <=? Item.Scanned details then "Fulfilled" else "Pending")
    (Item.Price details)
    (Order.State order_data) (Order.City order_data) (Order.Payment order_data).

Definition orders_list (db : dict Order.t) : list View.t :=
  flat_map (fun '(order_id, order_data) =>
              map (fun '(sku, details) => line_view order_id order_data sku details)
                  (Order.SKUs order_data))
           db.

Definition get_orders (st : store) : response (list View.t) :=
  mkResponse 200 true (Plain "Orders retrieved successfully") (Some (orders_list (orders_db st))).

(** *** [get_order] *)

Definition get_order (order_id : string) (st : store) : response Order.t :=
  match dict_get order_id (orders_db st) with
  | None => mkResponse 404 false (Plain "Order not found") None
  | Some order => mkResponse 200 true (Plain "Order retrieved successfully") (Some order)
  end.

(** *** [upload_file] *)

Notation "x <- c ;; k" :=
  (match c with inl e => inl e | inr x => k end)
  (at level 61, c at next level, right associativity).

(** [f"{int(float(x)):,}"] *)
Definition grouped (x : Py.cell) : Py.exn + string :=
  f <- Py.float x ;;
  z <- Py.int_of_float f ;;
  inr (Py.format_grouped z).

(** Line 163: the value stored under ['Payment'] of a new order. *)
Definition payment_of (row : Row.t) : Py.exn + option string :=
  if Py.notna (Row.Payment row)
  then (p <- grouped (Row.Payment row) ;; inr (Some p))
  else inr None.

(** Lines 157-165: the order is created when its identifier is new. If
    the dictionary display raises, nothing has been assigned. *)
Definition ensure_order (row : Row.t) (db : dict Order.t) : Py.exn + dict Order.t :=
  let order_id := Py.str (Row.OrderID row) in
  if dict_mem order_id db then inr db
  else
    payment <- payment_of row ;;
    inr (dict_set order_id
           (Order.mk [] (Row.State row) (Row.City row) payment "Pending") db).

(** Line 171: the value stored under ['Quantity']. *)
Definition quantity_of (row : Row.t) : Py.exn + Z :=
  if Py.notna (Row.Quantity row) then Py.int (Row.Quantity row) else inr 0.

(** Line 173: the value stored under ['Price']. *)
Definition price_of (row : Row.t) : Py.exn + string :=
  if Py.notna (Row.Price row) then grouped (Row.Price row) else inr "0".

(** Lines 167-174: the display on the right is evaluated before the
    assignment, key by key. *)
Definition fresh_item (row : Row.t) : Py.exn + Item.t :=
  quantity <- quantity_of row ;;
  price <- price_of row ;;
  inr (Item.mk (Row.Title row) (Row.Color row) quantity 0 price None).

Definition put_item (row : Row.t) (db : dict Order.t) : Py.exn + dict Order.t :=
  let order_id := Py.str (Row.OrderID row) in
  let sku := Py.str (Row.SKU row) in
  details <- fresh_item row ;;
  match dict_get order_id db with
  | None => inl (Py.KeyError order_id)
  | Some order =>
      inr (dict_set order_id
             (Order.set_SKUs (dict_set sku details (Order.SKUs order)) order) db)
  end.

(** One iteration of the loop: the dictionary it leaves behind and the
    exception it raised, if any. *)
Definition process_row (row : Row.t) (db : dict Order.t) : dict Order.t * option Py.exn :=
  match ensure_order row db with
  | inl e => (db, Some e)
  | inr db1 =>
      match put_item row db1 with
      | inl e => (db1, Some e)
      | inr db2 => (db2, None)
      end
  end.

(** The loop over [df.iterrows()], stopped by the first exception. *)
Fixpoint process_rows (rows : list Row.t) (db : dict Order.t) (processed_count : Z)
  : dict Order.t * (Py.exn + Z) :=
  match rows with
  | [] => (db, inr processed_count)
  | row :: rest =>
      match process_row row db with
      | (db', Some e) => (db', inl e)
      | (db', None) => process_rows rest db' (processed_count + 1)
      end
  end.

(** [s.endswith(suffix)] *)
Definition endswith (s suffix : string) : bool :=
  let n := String.length s in
  let m := String.length suffix in
  (m <=? n)%nat && String.eqb (substring (n - m) m s) suffix.

(** The uploaded file: its name and what saving it, reading it with
    [pd.read_excel] and renaming its columns gives, an exception or the
    rows of the frame. *)
Record upload : Type := mkUpload {
  filename : string;
  frame : Py.exn + list Row.t
}.

Definition processing_failed (e : Py.exn) (w : stamp) (db : dict Order.t)
    (logs : list Log.entry) : response Z * store :=
  (mkResponse 500 false (StrOf "Error processing file: " e) None,
   mkStore db (add_log w "File processing failed" "error" (Some (StrOf "" e)) logs)).

(** [file] is [None] when the request carries no part named ['file']. *)
Definition upload_file (file : option upload) (w : stamp) (st : store)
  : response Z * store :=
  match file with
  | None =>
      (mkResponse 400 false (Plain "No file provided") None,
       mkStore (orders_db st)
         (add_log w "File upload failed" "error" (Some (Plain "No file provided")) (logs_db st)))
  | Some file =>
      if negb (endswith (filename file) ".xlsx") then
        (mkResponse 400 false (Plain "Invalid file format") None,
         mkStore (orders_db st)
           (add_log w "File upload failed" "error" (Some (Plain "Invalid file format")) (logs_db st)))
      else
        match frame file with
        | inl e => processing_failed e w (orders_db st) (logs_db st)
        | inr rows =>
            match process_rows rows (orders_db st) 0 with
            | (db, inl e) => processing_failed e w db (logs_db st)
            | (db, inr processed_count) =>
                (mkResponse 200 true (Plain "File uploaded and processed successfully")
                   (Some processed_count),
                 mkStore db
                   (add_log w "File uploaded successfully" "success"
                      (Some (Plain ("Processed " ++ Py.str_of_int processed_count ++ " orders")))
                      (logs_db st)))
            end
        end
  end.

(** *** [scan_order] *)

(** [not x] for a value read with [data.get]: [None] (the key is absent
    or null) and the empty string are false. JSON values that are not
    strings are not represented. *)
Definition falsy (x : option string) : bool :=
  match x with
  | None => true
  | Some s => String.eqb s ""
  end.

Definition missing_fields : response unit :=
  mkResponse 400 false (Plain "Missing required fields") None.

Definition not_found : response unit :=
  mkResponse 404 false (Plain "Order or SKU not found") None.

Definition scan_successful : response unit :=
  mkResponse 200 true (Plain "Scan successful") None.

(** [scan_time] is [JalaliDatetime.now()] rendered to the minute, read
    before the log entry is stamped with [w]. *)
Definition scan_order (orderId sku : option string) (scan_time : string) (w : stamp)
    (st : store) : response unit * store :=
  if falsy orderId || falsy sku then (missing_fields, st)
  else
    match orderId, sku with
    | Some order_id, Some sku =>
        match dict_get order_id (orders_db st) with
        | None => (not_found, st)
        | Some order =>
            match dict_get sku (Order.SKUs order) with
            | None => (not_found, st)
            | Some details =>
                let details := Item.set_Scanned (Item.Scanned details + 1) details in
                let details := Item.set_ScanTimestamp scan_time details in
                let order := Order.set_SKUs (dict_set sku details (Order.SKUs order)) order in
                (scan_successful,
                 mkStore (dict_set order_id order (orders_db st))
                   (add_log w
                      ("Item scanned: Order " ++ order_id ++ ", SKU " ++ sku)
                      "success"
                      (Some (Plain ("Scanned count: " ++ Py.str_of_int (Item.Scanned details))))
                      (logs_db st)))
            end
        end
    | _, _ => (missing_fields, st)   (* not reached: both are non-empty strings *)
    end.

(** ** Observations and derived notions used by the statements *)

(** [orders_db[order_id]['SKUs'][sku]], when both keys are present. *)
Definition item_at (order_id sku : string) (db : dict Order.t) : option Item.t :=
  match dict_get order_id db with
  | Some order => dict_get sku (Order.SKUs order)
  | None => None
  end.

Definition scanned_count (order_id sku : string) (st : store) : option Z :=
  option_map Item.Scanned (item_at order_id sku (orders_db st)).

(** Keys of a Python dictionary are pairwise distinct, at both levels. *)
Definition wf_db (db : dict Order.t) : Prop :=
  NoDup (dict_keys db) /\
  forall order_id order, In (order_id, order) db -> NoDup (dict_keys (Order.SKUs order)).

(** A scan request as it arrives, with what it reads from the clock. *)
Record scan_call : Type := mkScan {
  call_orderId : option string;
  call_sku : option string;
  call_time : string;
  call_stamp : stamp
}.

Definition scan (c : scan_call) (st : store) : response unit * store :=
  scan_order (call_orderId c) (call_sku c) (call_time c) (call_stamp c) st.

(** A sequence of scan requests, in order: the responses and the store
    they leave. *)
Fixpoint scan_all (calls : list scan_call) (st : store) : list (response unit) * store :=
  match calls with
  | [] => ([], st)
  | c :: rest =>
      let (r, st1) := scan c st in
      let (rs, st2) := scan_all rest st1 in
      (r :: rs, st2)
  end.

Definition scans (calls : list scan_call) (st : store) : store :=
  snd (scan_all calls st).

(** The same pair scanned once per element of [clock]. *)
Definition scan_repeat (order_id sku : string) (clock : list (string * stamp)) : list scan_call :=
  map (fun '(t, w) => mkScan (Some order_id) (Some sku) t w) clock.

(** An order identifier cell that is absent (a missing column), empty
    (NaN) or the empty string. *)
Definition blank (x : Py.cell) : bool :=
  match x with
  | Py.CNone => true
  | Py.CFloat S754_nan => true
  | Py.CStr s => String.eqb s ""
  | _ => false
  end.

(** An upload of a well-named file whose frame has the given rows. *)
Definition xlsx (rows : list Row.t) : option upload :=
  Some (mkUpload "orders.xlsx" (inr rows)).

(** The order-level fields of two orders agree. *)
Definition same_order_fields (o o' : Order.t) : Prop :=
  Order.State o' = Order.State o /\ Order.City o' = Order.City o /\
  Order.Payment o' = Order.Payment o /\ Order.Status o' = Order.Status o.

(** The item that a successful scan leaves under the scanned keys. *)
Definition scanned_item (scan_time : string) (d : Item.t) : Item.t :=
  Item.mk (Item.Title d) (Item.Color d) (Item.Quantity d) (Item.Scanned d + 1)
          (Item.Price d) (Some scan_time).

(** The log entry that a successful scan appends. *)
Definition scan_entry (order_id sku : string) (w : stamp) (d : Item.t) : Log.entry :=
  Log.mk (uuid4 w) (now w)
         ("Item scanned: Order " ++ order_id ++ ", SKU " ++ sku) "success"
         (Some (Plain ("Scanned count: " ++ Py.str_of_int (Item.Scanned d + 1)))).

(** The stores that a run of the server can hold. *)
Inductive reachable : store -> Prop :=
  | reach_start : reachable empty_store
  | reach_upload file w st :
      reachable st -> reachable (snd (upload_file file w st))
  | reach_scan orderId sku scan_time w st :
      reachable st -> reachable (snd (scan_order orderId sku scan_time w st)).

(** *** Sample data *)

Definition w0 : stamp := mkStamp "00000000-0000-4000-8000-000000000000" "1403/01/15 10:30:00".
Definition t0 : string := "1403/01/15 10:30".

Definition row_A1 : Row.t :=
  Row.mk (Py.CInt 1001) (Py.CStr "A1") (Py.CStr "Shirt") (Py.CStr "Red")
         (Py.CInt 3) (Py.CInt 15000) (Py.CStr "Tehran") (Py.CStr "Tehran") (Py.CInt 20000).

Definition row_A2 : Row.t :=
  Row.mk (Py.CInt 1001) (Py.CStr "A2") (Py.CStr "Hat") (Py.CStr "Blue")
         (Py.CInt 1) (Py.CInt 5000) (Py.CStr "Fars") (Py.CStr "Shiraz") (Py.CInt 99).

(** A quantity that is text. *)
Definition row_bad_quantity : Row.t :=
  Row.mk (Py.CInt 1002) (Py.CStr "B1") (Py.CStr "Scarf") (Py.CStr "Green")
         (Py.CStr "abc") (Py.CInt 7000) (Py.CStr "Yazd") (Py.CStr "Yazd") (Py.CInt 7000).

(** A negative quantity. *)
Definition row_negative_quantity : Row.t :=
  Row.mk (Py.CInt 1003) (Py.CStr "C1") (Py.CStr "Belt") (Py.CStr "Black")
         (Py.CInt (-3)) (Py.CInt 9000) (Py.CStr "Gilan") (Py.CStr "Rasht") (Py.CInt 9000).

(** An empty cell as order identifier. *)
Definition row_nan_id : Row.t :=
  Row.mk (Py.CFloat S754_nan) (Py.CStr "D1") (Py.CStr "Sock") (Py.CStr "White")
         (Py.CInt 2) (Py.CInt 1000) (Py.CStr "Qom") (Py.CStr "Qom") (Py.CInt 2000).

(** An empty string as order identifier. *)
Definition row_empty_id : Row.t :=
  Row.mk (Py.CStr "") (Py.CStr "E1") (Py.CStr "Cap") (Py.CStr "Grey")
         (Py.CInt 1) (Py.CInt 3000) (Py.CStr "Qom") (Py.CStr "Qom") (Py.CInt 3000).

(** Row A1 again, with another quantity and price. *)
Definition row_A1_more : Row.t :=
  Row.mk (Py.CInt 1001) (Py.CStr "A1") (Py.CStr "Shirt") (Py.CStr "Red")
         (Py.CInt 5) (Py.CInt 16000) (Py.CStr "Tehran") (Py.CStr "Tehran") (Py.CInt 20000).

(** A missing quantity and a missing payment. *)
Definition row_no_quantity : Row.t :=
  Row.mk (Py.CInt 1004) (Py.CStr "F1") (Py.CStr "Glove") (Py.CStr "Brown")
         (Py.CFloat S754_nan) (Py.CInt 4000) (Py.CStr "Ilam") (Py.CStr "Ilam") Py.CNone.

Definition after_A1 : store := snd (upload_file (xlsx [row_A1]) w0 empty_store).
Definition after_A1_scanned : store := snd (scan_order (Some "1001") (Some "A1") t0 w0 after_A1).
Definition after_A1_again : store := snd (upload_file (xlsx [row_A1]) w0 after_A1_scanned).

(** Scenario A of the specification, followed by one scan of the second item. *)
Definition after_A1_A2 : store := snd (upload_file (xlsx [row_A1; row_A2]) w0 empty_store).
Definition after_A1_A2_scanned : store :=
  snd (scan_order (Some "1001") (Some "A2") t0 w0 after_A1_A2).

(** Scenario B of the specification: a line item with quantity 3 scanned
    four times. *)
Definition clock4 : list (string * stamp) := [(t0, w0); (t0, w0); (t0, w0); (t0, w0)].

(** ** The other endpoints and whole runs *)

(** [get_logs] *)
Definition get_logs (st : store) : response (list Log.entry) :=
  mkResponse 200 true (Plain "Logs retrieved successfully") (Some (logs_db st)).

(** [system_status]: the object under ['data'] of its response; [clock] is
    [JalaliDatetime.now()] rendered to the second. *)
Record stats : Type := mkStats {
  total_orders : Z;
  total_logs : Z
}.

Record status_report : Type := mkReport {
  report_status : string;
  report_message : string;
  report_timestamp : string;
  report_stats : stats
}.

Definition system_status (clock : string) (st : store) : status_report :=
  mkReport "operational" "System is running normally" clock
    (mkStats (Z.of_nat (List.length (orders_db st)))
             (Z.of_nat (List.length (logs_db st)))).

(** The two requests that write to the store. *)
Inductive request : Type :=
  | Upload (file : option upload) (w : stamp)
  | Scan (c : scan_call).

(** One request: the ['success'] flag of its response and the store it
    leaves. *)
Definition handle (r : request) (st : store) : bool * store :=
  match r with
  | Upload file w => let (resp, st') := upload_file file w st in (success resp, st')
  | Scan c => let (resp, st') := scan c st in (success resp, st')
  end.

(** A sequence of requests, in order. *)
Fixpoint run (rs : list request) (st : store) : list bool * store :=
  match rs with
  | [] => ([], st)
  | r :: rest =>
      let (ok, st1) := handle r st in
      let (oks, st2) := run rest st1 in
      (ok :: oks, st2)
  end.

(** How many log entries a request with a given outcome writes: an
    upload always one, a scan one when it succeeds. *)
Definition logged (r : request) (ok : bool) : nat :=
  match r with
  | Upload _ _ => 1
  | Scan _ => if ok then 1 else 0
  end.

Fixpoint logged_all (rs : list request) (oks : list bool) : nat :=
  match rs, oks with
  | r :: rest, ok :: oks' => logged r ok + logged_all rest oks'
  | _, _ => 0
  end.

(** A record of the listing after one more scan of its line item. *)
Definition rescanned (v : View.t) : View.t :=
  View.mk (View.id v) (View.sku v) (View.title v) (View.color v)
          (View.quantity v) (View.scanned v + 1)
          (if View.quantity v <=? View.scanned v + 1 then "Fulfilled" else "Pending")
          (View.price v) (View.state v) (View.city v) (View.payment v).

(** The listing with the record of one pair rescanned. *)
Definition rescan_in (order_id sku : string) (views : list View.t) : list View.t :=
  map (fun v => if String.eqb (View.id v) order_id && String.eqb (View.sku v) sku
                then rescanned v else v)
      views.

(** A line item as the code can leave it: a count that is not negative,
    and a scan timestamp exactly when the count is not 0. *)
Definition item_ok (d : Item.t) : Prop :=
  0 <= Item.Scanned d /\ (Item.ScanTimestamp d = None <-> Item.Scanned d = 0).

Definition order_ok (o : Order.t) : Prop :=
  Order.Status o = "Pending" /\
  forall sku d, In (sku, d) (Order.SKUs o) -> item_ok d.

Definition store_ok (db : dict Order.t) : Prop :=
  forall order_id o, In (order_id, o) db -> order_ok o.

(** [db'] has the keys of [db], in the same order, and possibly more
    after them, for the orders and inside every order. *)
Definition keys_kept {V : Type} (d d' : dict V) : Prop :=
  exists more, dict_keys d' = (dict_keys d ++ more)%list.

Definition extends (db db' : dict Order.t) : Prop :=
  keys_kept db db' /\
  forall order_id o,
    dict_get order_id db = Some o ->
    exists o', dict_get order_id db' = Some o' /\
               keys_kept (Order.SKUs o) (Order.SKUs o').

(** The two keys of a row. *)
Definition row_keys (row : Row.t) : string * string :=
  (Py.str (Row.OrderID row), Py.str (Row.SKU row)).

Definition same_keys (k : string * string) (row : Row.t) : bool :=
  String.eqb (fst k) (fst (row_keys row)) && String.eqb (snd k) (snd (row_keys row)).

(** The line item that the last row of a batch naming a pair builds,
    if a row names the pair and its conversions succeed. *)
Fixpoint last_item (rows : list Row.t) (k : string * string) : option Item.t :=
  match rows with
  | [] => None
  | row :: rest =>
      match last_item rest k with
      | Some d => Some d
      | None =>
          if same_keys k row
          then match fresh_item row with inr d => Some d | inl _ => None end
          else None
      end
  end.

(** The skus of an order, in order, when the order exists. *)
Definition skus_of (order_id : string) (db : dict Order.t) : option (list string) :=
  option_map (fun o => dict_keys (Order.SKUs o)) (dict_get order_id db).

(** Two stores with the same keys at both levels. *)
Definition same_shape (db db' : dict Order.t) : Prop :=
  dict_keys db' = dict_keys db /\ forall order_id, skus_of order_id db' = skus_of order_id db.

(** * Properties *)

(** ** The built-ins on sample values

    The expected values are those of CPython 3.11. *)

Example int_of_str_accepts :
  map Py.int_of_str [" 1_000 "; "-0012"; "+7"; "0"]
  = [inr 1000; inr (-12); inr 7; inr 0].
Proof. reflexivity. Qed.

Example int_of_str_rejects :
  map Py.int_of_str ["abc"; "1__0"; "1_"; "_1"; ""; "+ 1"; "12.0"; "+-1"; "1e3"]
  = map (fun s => inl (Py.ValueError_int s))
        ["abc"; "1__0"; "1_"; "_1"; ""; "+ 1"; "12.0"; "+-1"; "1e3"].
Proof. reflexivity. Qed.

Example str_of_int_samples :
  map Py.str_of_int [0; 7; 10; -5; 1001; 999; 1000]
  = ["0"; "7"; "10"; "-5"; "1001"; "999"; "1000"].
Proof. reflexivity. Qed.

Example format_grouped_samples :
  map Py.format_grouped [-1234567; 0; 999; 1000; -100; 15000; 100000]
  = ["-1,234,567"; "0"; "999"; "1,000"; "-100"; "15,000"; "100,000"].
Proof. reflexivity. Qed.

Example float_of_str_samples :
  map Py.float_of_str ["1.5"; "1001"; ".5"; "1e3"; "-0"; "inf"; "NaN"; "0.1"]
  = [inr (S754_finite false 6755399441055744 (-52));
     inr (S754_finite false 8804889115230208 (-43));
     inr (S754_finite false 4503599627370496 (-53));
     inr (S754_finite false 8796093022208000 (-43));
     inr (S754_zero true);
     inr (S754_infinity false);
     inr S754_nan;
     inr (S754_finite false 7205759403792794 (-56))].
Proof. vm_compute. reflexivity. Qed.

Example float_of_str_rejects :
  map Py.float_of_str ["abc"; "."; "1_.0"; "1e"; "--1"; ""]
  = map (fun s => inl (Py.ValueError_float s)) ["abc"; "."; "1_.0"; "1e"; "--1"; ""].
Proof. reflexivity. Qed.

Example str_of_float_samples :
  map Py.str_of_float
      [S754_finite false 8804889115230208 (-43);
       S754_finite false 7205759403792794 (-56);
       S754_finite false 5000000000000000 1;
       S754_finite false 5902958103587057 (-69);
       S754_finite true 7036874417766400 (-49);
       S754_zero false; S754_nan; S754_infinity true]
  = ["1001.0"; "0.1"; "1e+16"; "1e-05"; "-12.5"; "0.0"; "nan"; "-inf"].
Proof. vm_compute. reflexivity. Qed.

Example int_of_float_samples :
  map Py.int_of_float
      [S754_finite false 8804889115230208 (-43);
       S754_finite true 8162774324609024 (-51);
       S754_infinity false; S754_nan]
  = [inr 1001; inr (-3); inl Py.OverflowError_inf; inl Py.ValueError_nan].
Proof. vm_compute. reflexivity. Qed.

Example float_of_int_rounds : Py.float_of_int (2 ^ 53 + 1) = inr (S754_finite false (2 ^ 52) 1).
Proof. vm_compute. reflexivity. Qed.

Example grouped_samples :
  map grouped [Py.CInt 15000; Py.CStr "1234567.9"; Py.CStr "abc"; Py.CStr "inf"]
  = [inr "15,000"; inr "1,234,567"; inl (Py.ValueError_float "abc"); inl Py.OverflowError_inf].
Proof. vm_compute. reflexivity. Qed.

Example str_of_cells :
  map Py.str [Py.CNone; Py.CFloat S754_nan; Py.CInt 1001; Py.CStr ""; Py.CStr "A1"]
  = ["None"; "nan"; "1001"; ""; "A1"].
Proof. reflexivity. Qed.

(** ** Dictionaries *)

Section DictFacts.
Context {V : Type}.
Implicit Types (d : dict V) (k : string) (v : V).

Lemma dict_get_set_same k v d : dict_get k (dict_set k v d) = Some v.
Proof.
  induction d as [|[k' v'] d IH]; simpl.
  - now rewrite String.eqb_refl.
  - destruct (String.eqb k k') eqn:E; simpl.
    + now rewrite String.eqb_refl.
    + now rewrite E.
Qed.

Lemma dict_get_set_other k k' v d :
  k' <> k -> dict_get k' (dict_set k v d) = dict_get k' d.
Proof.
  intros Hne. induction d as [|[k0 v0] d IH]; simpl.
  - apply String.eqb_neq in Hne. now rewrite Hne.
  - destruct (String.eqb k k0) eqn:E; simpl.
    + apply String.eqb_eq in E. subst k0.
      apply String.eqb_neq in Hne. now rewrite Hne.
    + destruct (String.eqb k' k0); [reflexivity | exact IH].
Qed.

Lemma dict_get_In k v d : dict_get k d = Some v -> In (k, v) d.
Proof.
  induction d as [|[k' v'] d IH]; simpl; [discriminate|].
  destruct (String.eqb k k') eqn:E.
  - apply String.eqb_eq in E. intros [= ->]. subst. now left.
  - intros H. right. auto.
Qed.

Lemma dict_get_None k d : dict_get k d = None <-> ~ In k (dict_keys d).
Proof.
  induction d as [|[k' v'] d IH]; simpl.
  - tauto.
  - destruct (String.eqb k k') eqn:E.
    + apply String.eqb_eq in E. subst. split; [discriminate | intros H; exfalso; auto].
    + apply String.eqb_neq in E. rewrite IH. split.
      * intros H [H1 | H1]; [congruence | auto].
      * intros H H1. apply H. now right.
Qed.

Lemma In_dict_get k v d : NoDup (dict_keys d) -> In (k, v) d -> dict_get k d = Some v.
Proof.
  induction d as [|[k' v'] d IH]; simpl; [tauto|].
  intros Hnd [H | H].
  - injection H as -> ->. now rewrite String.eqb_refl.
  - inversion Hnd as [|? ? Hnotin Hnd']; subst.
    destruct (String.eqb k k') eqn:E.
    + apply String.eqb_eq in E. subst k'. exfalso. apply Hnotin.
      change k with (fst (k, v)). now apply in_map.
    + auto.
Qed.

(** Assignment to a present key keeps the keys and their order. *)
Lemma dict_keys_set_present k v d :
  dict_get k d <> None -> dict_keys (dict_set k v d) = dict_keys d.
Proof.
  induction d as [|[k' v'] d IH]; simpl; [congruence|].
  destruct (String.eqb k k') eqn:E; simpl.
  - apply String.eqb_eq in E. now subst.
  - intros H. f_equal. auto.
Qed.

(** Assignment to a new key appends it. *)
Lemma dict_set_absent k v d :
  dict_get k d = None -> dict_set k v d = (d ++ [(k, v)])%list.
Proof.
  induction d as [|[k' v'] d IH]; simpl; [reflexivity|].
  destruct (String.eqb k k'); [discriminate|].
  intros H. f_equal. auto.
Qed.

Lemma dict_set_In k v k0 v0 d :
  In (k0, v0) (dict_set k v d) -> (k0 = k /\ v0 = v) \/ In (k0, v0) d.
Proof.
  induction d as [|[k' v'] d IH]; simpl.
  - intros [[= <- <-] | []]. now left.
  - destruct (String.eqb k k') eqn:E; simpl.
    + intros [[= <- <-] | H]; [now left | right; now right].
    + intros [H | H]; [right; now left|].
      destruct (IH H) as [H1 | H1]; [now left | right; now right].
Qed.

Lemma dict_set_NoDup k v d : NoDup (dict_keys d) -> NoDup (dict_keys (dict_set k v d)).
Proof.
  intros Hnd. destruct (dict_get k d) eqn:E.
  - rewrite dict_keys_set_present; [exact Hnd | congruence].
  - rewrite dict_set_absent by exact E. unfold dict_keys.
    rewrite map_app. simpl.
    apply NoDup_app; [exact Hnd | repeat constructor; simpl; tauto |].
    intros x Hx [<- | []]. now apply dict_get_None in E.
Qed.
End DictFacts.

(** ** One row of the loop *)

Lemma same_order_fields_refl o : same_order_fields o o.
Proof. repeat split. Qed.

Lemma same_order_fields_trans o1 o2 o3 :
  same_order_fields o1 o2 -> same_order_fields o2 o3 -> same_order_fields o1 o3.
Proof. unfold same_order_fields. intuition congruence. Qed.

Lemma ensure_order_inv row db db1 :
  ensure_order row db = inr db1 ->
  (dict_get (Py.str (Row.OrderID row)) db <> None /\ db1 = db) \/
  (dict_get (Py.str (Row.OrderID row)) db = None /\
   exists p, payment_of row = inr p /\
     db1 = dict_set (Py.str (Row.OrderID row))
             (Order.mk [] (Row.State row) (Row.City row) p "Pending") db).
Proof.
  unfold ensure_order, dict_mem.
  destruct (dict_get (Py.str (Row.OrderID row)) db) eqn:E.
  - intros [= <-]. left. split; congruence.
  - destruct (payment_of row) as [e | p]; [discriminate|].
    intros [= <-]. right. split; [reflexivity|]. now exists p.
Qed.

Lemma ensure_order_present row db db1 :
  ensure_order row db = inr db1 ->
  exists o, dict_get (Py.str (Row.OrderID row)) db1 = Some o.
Proof.
  intros H. destruct (ensure_order_inv _ _ _ H) as [[Hin ->] | [_ (p & _ & ->)]].
  - destruct (dict_get _ db) as [o|]; [now exists o | congruence].
  - eexists. apply dict_get_set_same.
Qed.

(** [ensure_order] leaves every line item where it was. *)
Lemma ensure_order_item_at row db db1 order_id sku :
  ensure_order row db = inr db1 -> item_at order_id sku db1 = item_at order_id sku db.
Proof.
  intros H. destruct (ensure_order_inv _ _ _ H) as [[_ ->] | [Hnone (p & _ & ->)]];
    [reflexivity|].
  unfold item_at. destruct (string_dec order_id (Py.str (Row.OrderID row))) as [-> | Hne].
  - now rewrite dict_get_set_same, Hnone.
  - now rewrite dict_get_set_other.
Qed.

(** [ensure_order] leaves every order that exists where it was. *)
Lemma ensure_order_get row db db1 order_id o :
  ensure_order row db = inr db1 ->
  dict_get order_id db = Some o -> dict_get order_id db1 = Some o.
Proof.
  intros H Ho. destruct (ensure_order_inv _ _ _ H) as [[_ ->] | [Hnone (p & _ & ->)]];
    [exact Ho|].
  rewrite dict_get_set_other; [exact Ho | congruence].
Qed.

Lemma process_row_ok_inv row db db' :
  process_row row db = (db', None) ->
  exists db1 o d,
    ensure_order row db = inr db1 /\
    dict_get (Py.str (Row.OrderID row)) db1 = Some o /\
    fresh_item row = inr d /\
    db' = dict_set (Py.str (Row.OrderID row))
            (Order.set_SKUs (dict_set (Py.str (Row.SKU row)) d (Order.SKUs o)) o) db1.
Proof.
  unfold process_row, put_item.
  destruct (ensure_order row db) as [e | db1] eqn:E; [discriminate|].
  destruct (fresh_item row) as [e | d]; [discriminate|].
  destruct (dict_get (Py.str (Row.OrderID row)) db1) as [o|] eqn:G; [|discriminate].
  intros [= <-]. now exists db1, o, d.
Qed.

Lemma process_row_raise_inv row db db' e :
  process_row row db = (db', Some e) ->
  (ensure_order row db = inl e /\ db' = db) \/
  (ensure_order row db = inr db' /\ fresh_item row = inl e).
Proof.
  unfold process_row, put_item.
  destruct (ensure_order row db) as [e1 | db1] eqn:E.
  - intros [= <- <-]. now left.
  - destruct (ensure_order_present _ _ _ E) as [o Ho]. rewrite Ho.
    destruct (fresh_item row) as [e1 | d].
    + intros [= <- <-]. now right.
    + discriminate.
Qed.

(** A row writes at most the line item under its own two keys. *)
Lemma process_row_item_at row db db' r order_id sku :
  process_row row db = (db', r) ->
  item_at order_id sku db' =
    match r with
    | None =>
        if String.eqb order_id (Py.str (Row.OrderID row))
           && String.eqb sku (Py.str (Row.SKU row))
        then match fresh_item row with inr d => Some d | inl _ => None end
        else item_at order_id sku db
    | Some _ => item_at order_id sku db
    end.
Proof.
  destruct r as [e|]; intros H.
  - destruct (process_row_raise_inv _ _ _ _ H) as [[_ ->] | [E _]]; [reflexivity|].
    eapply ensure_order_item_at; eassumption.
  - destruct (process_row_ok_inv _ _ _ H) as (db1 & o & d & E & Ho & Hd & ->).
    rewrite Hd. rewrite <- (ensure_order_item_at _ _ _ order_id sku E).
    unfold item_at.
    destruct (String.eqb order_id (Py.str (Row.OrderID row))) eqn:E1; simpl.
    + apply String.eqb_eq in E1. subst order_id.
      rewrite dict_get_set_same, Ho. simpl.
      destruct (String.eqb sku (Py.str (Row.SKU row))) eqn:E2.
      * apply String.eqb_eq in E2. subst sku. apply dict_get_set_same.
      * apply String.eqb_neq in E2. now apply dict_get_set_other.
    + apply String.eqb_neq in E1. now rewrite dict_get_set_other.
Qed.

(** A row never touches the order-level fields of an order that exists. *)
Lemma process_row_order_fields row db db' r order_id o :
  process_row row db = (db', r) ->
  dict_get order_id db = Some o ->
  exists o', dict_get order_id db' = Some o' /\ same_order_fields o o'.
Proof.
  intros H Ho. destruct r as [e|].
  - destruct (process_row_raise_inv _ _ _ _ H) as [[_ ->] | [E _]].
    + exists o. split; [exact Ho | apply same_order_fields_refl].
    + exists o. split; [eapply ensure_order_get; eassumption | apply same_order_fields_refl].
  - destruct (process_row_ok_inv _ _ _ H) as (db1 & o1 & d & E & Ho1 & Hd & ->).
    pose proof (ensure_order_get _ _ _ _ _ E Ho) as Ho'.
    destruct (string_dec order_id (Py.str (Row.OrderID row))) as [-> | Hne].
    + rewrite Ho1 in Ho'. injection Ho' as ->.
      eexists. split; [apply dict_get_set_same|]. repeat split.
    + exists o. split; [|apply same_order_fields_refl].
      now rewrite dict_get_set_other.
Qed.

(** ** The loop *)

Lemma process_rows_order_fields rows : forall db n db' res order_id o,
  process_rows rows db n = (db', res) ->
  dict_get order_id db = Some o ->
  exists o', dict_get order_id db' = Some o' /\ same_order_fields o o'.
Proof.
  induction rows as [|row rest IH]; simpl; intros db n db' res order_id o H Ho.
  - injection H as <- _. exists o. split; [exact Ho | apply same_order_fields_refl].
  - destruct (process_row row db) as [db1 [e|]] eqn:E.
    + injection H as <- _. eapply process_row_order_fields; eassumption.
    + destruct (process_row_order_fields _ _ _ _ _ _ E Ho) as (o1 & Ho1 & F1).
      destruct (IH _ _ _ _ _ _ H Ho1) as (o' & Ho' & F').
      exists o'. split; [exact Ho' | eapply same_order_fields_trans; eassumption].
Qed.

(** Without an exception the counter advances by the number of rows. *)
Lemma process_rows_count rows : forall db n db' m,
  process_rows rows db n = (db', inr m) -> m = n + Z.of_nat (List.length rows).
Proof.
  induction rows as [|row rest IH]; simpl; intros db n db' m H.
  - injection H as _ <-. lia.
  - destruct (process_row row db) as [db1 [e|]]; [discriminate|].
    apply IH in H. lia.
Qed.


(** An exception comes from one row, reached after the rows before it. *)
Lemma process_rows_raise_inv rows : forall db n db' e,
  process_rows rows db n = (db', inl e) ->
  exists pre bad post db1,
    rows = (pre ++ bad :: post)%list /\
    process_rows pre db n = (db1, inr (n + Z.of_nat (List.length pre))) /\
    process_row bad db1 = (db', Some e).
Proof.
  induction rows as [|row rest IH]; simpl; intros db n db' e H; [discriminate|].
  destruct (process_row row db) as [db1 [e1|]] eqn:E.
  - injection H as <- <-. exists [], row, rest, db. simpl.
    repeat split; [f_equal; f_equal; lia | exact E].
  - destruct (IH _ _ _ _ H) as (pre & bad & post & db2 & -> & Hpre & Hbad).
    exists (row :: pre), bad, post, db2. simpl. rewrite E.
    repeat split; [|exact Hbad].
    rewrite Hpre. f_equal. f_equal. lia.
Qed.

(** ** Scanning *)

Lemma falsy_false x : falsy x = false <-> exists s, x = Some s /\ s <> "".
Proof.
  destruct x as [s|]; simpl.
  - rewrite String.eqb_neq. split.
    + intros H. now exists s.
    + now intros (s' & [= <-] & H).
  - split; [discriminate | now intros (s & H & _)].
Qed.

Lemma responses_distinct :
  missing_fields <> not_found /\ scan_successful <> not_found /\
  scan_successful <> missing_fields.
Proof. repeat split; discriminate. Qed.

Lemma scan_order_found order_id sku scan_time w st o d :
  order_id <> "" -> sku <> "" ->
  dict_get order_id (orders_db st) = Some o ->
  dict_get sku (Order.SKUs o) = Some d ->
  scan_order (Some order_id) (Some sku) scan_time w st =
    (scan_successful,
     mkStore
       (dict_set order_id
          (Order.set_SKUs (dict_set sku (scanned_item scan_time d) (Order.SKUs o)) o)
          (orders_db st))
       (logs_db st ++ [scan_entry order_id sku w d])%list).
Proof.
  intros H1 H2 Ho Hd. unfold scan_order. simpl.
  apply String.eqb_neq in H1, H2. rewrite H1, H2. simpl.
  now rewrite Ho, Hd.
Qed.

Lemma scan_order_absent order_id sku scan_time w st :
  order_id <> "" -> sku <> "" ->
  item_at order_id sku (orders_db st) = None ->
  scan_order (Some order_id) (Some sku) scan_time w st = (not_found, st).
Proof.
  intros H1 H2 Hnone. unfold scan_order. simpl.
  apply String.eqb_neq in H1, H2. rewrite H1, H2. simpl.
  unfold item_at in Hnone.
  destruct (dict_get order_id (orders_db st)) as [o|]; [|reflexivity].
  now rewrite Hnone.
Qed.

(** Every call falls in one of three cases. *)
Lemma scan_order_cases orderId sku scan_time w st :
  ((falsy orderId = true \/ falsy sku = true) /\
   scan_order orderId sku scan_time w st = (missing_fields, st)) \/
  (exists order_id sku',
     orderId = Some order_id /\ sku = Some sku' /\ order_id <> "" /\ sku' <> "" /\
     item_at order_id sku' (orders_db st) = None /\
     scan_order orderId sku scan_time w st = (not_found, st)) \/
  (exists order_id sku' o d,
     orderId = Some order_id /\ sku = Some sku' /\ order_id <> "" /\ sku' <> "" /\
     dict_get order_id (orders_db st) = Some o /\
     dict_get sku' (Order.SKUs o) = Some d /\
     scan_order orderId sku scan_time w st =
       (scan_successful,
        mkStore
          (dict_set order_id
             (Order.set_SKUs (dict_set sku' (scanned_item scan_time d) (Order.SKUs o)) o)
             (orders_db st))
          (logs_db st ++ [scan_entry order_id sku' w d])%list)).
Proof.
  destruct (falsy orderId) eqn:F1.
  { left. split; [now left|]. unfold scan_order. now rewrite F1. }
  destruct (falsy sku) eqn:F2.
  { left. split; [now right|]. unfold scan_order. now rewrite F1, F2. }
  apply falsy_false in F1, F2.
  destruct F1 as (order_id & -> & H1). destruct F2 as (sku' & -> & H2).
  right. destruct (item_at order_id sku' (orders_db st)) as [d|] eqn:E.
  - right. unfold item_at in E.
    destruct (dict_get order_id (orders_db st)) as [o|] eqn:Ho; [|discriminate].
    exists order_id, sku', o, d. repeat split; try assumption.
    now apply scan_order_found.
  - left. exists order_id, sku'. repeat split; try assumption.
    now apply scan_order_absent.
Qed.

(** What a scan does to the line item under any pair of keys. *)
Lemma scan_order_item_at orderId sku scan_time w st k s :
  item_at k s (orders_db (snd (scan_order orderId sku scan_time w st))) =
    if Bool.eqb (success (fst (scan_order orderId sku scan_time w st))) true
       && (match orderId with Some a => String.eqb k a | None => false end)
       && (match sku with Some b => String.eqb s b | None => false end)
    then option_map (scanned_item scan_time) (item_at k s (orders_db st))
    else item_at k s (orders_db st).
Proof.
  destruct (scan_order_cases orderId sku scan_time w st)
    as [[_ ->] | [(a & b & -> & -> & _ & _ & _ & ->)
                 | (a & b & o & d & -> & -> & _ & _ & Ho & Hd & ->)]];
    try reflexivity.
  simpl. unfold item_at.
  destruct (String.eqb k a) eqn:E1; simpl.
  - apply String.eqb_eq in E1. subst k. rewrite dict_get_set_same, Ho. simpl.
    destruct (String.eqb s b) eqn:E2.
    + apply String.eqb_eq in E2. subst s. now rewrite dict_get_set_same, Hd.
    + apply String.eqb_neq in E2. now apply dict_get_set_other.
  - apply String.eqb_neq in E1. now rewrite dict_get_set_other.
Qed.

Lemma scan_order_scanned_mono orderId sku scan_time w st k s n :
  scanned_count k s st = Some n ->
  exists n', scanned_count k s (snd (scan_order orderId sku scan_time w st)) = Some n'
             /\ n <= n'.
Proof.
  unfold scanned_count. rewrite scan_order_item_at.
  destruct (item_at k s (orders_db st)) as [d|]; [|discriminate].
  simpl. intros [= <-].
  match goal with |- context [if ?c then _ else _] => destruct c end; simpl.
  - eexists. split; [reflexivity | lia].
  - eexists. split; [reflexivity | lia].
Qed.

Lemma scans_scanned_mono calls : forall st k s n,
  scanned_count k s st = Some n ->
  exists n', scanned_count k s (scans calls st) = Some n' /\ n <= n'.
Proof.
  unfold scans. induction calls as [|c calls IH]; simpl; intros st k s n H.
  - exists n. split; [exact H | lia].
  - destruct (scan_order_scanned_mono (call_orderId c) (call_sku c) (call_time c)
                (call_stamp c) st k s n H) as (n1 & H1 & L1).
    unfold scan. destruct (scan_order _ _ _ _ st) as [r st1]. simpl in H1.
    destruct (IH _ _ _ _ H1) as (n' & H' & L').
    destruct (scan_all calls st1) as [rs st2]. simpl in *.
    exists n'. split; [exact H' | lia].
Qed.


(** Repeated scans change the count of the line item and nothing else
    of it but the timestamp. *)
Lemma scan_repeat_item order_id sku :
  order_id <> "" -> sku <> "" ->
  forall clock st o d,
    dict_get order_id (orders_db st) = Some o ->
    dict_get sku (Order.SKUs o) = Some d ->
    exists o' d',
      dict_get order_id (orders_db (scans (scan_repeat order_id sku clock) st)) = Some o' /\
      dict_get sku (Order.SKUs o') = Some d' /\
      same_order_fields o o' /\
      Item.Title d' = Item.Title d /\ Item.Color d' = Item.Color d /\
      Item.Price d' = Item.Price d /\ Item.Quantity d' = Item.Quantity d /\
      Item.Scanned d' = Item.Scanned d + Z.of_nat (List.length clock).
Proof.
  intros H1 H2. unfold scans.
  induction clock as [|[t w] clock IH]; intros st o d Ho Hd.
  - simpl. exists o, d. repeat split; try assumption. lia.
  - cbn [scan_repeat map scan_all]. unfold scan.
    cbn [call_orderId call_sku call_time call_stamp].
    rewrite (scan_order_found _ _ t w st o d H1 H2 Ho Hd).
    match goal with |- context [scan_all _ ?st1] => set (s1 := st1) end.
    destruct (IH s1 (Order.set_SKUs (dict_set sku (scanned_item t d) (Order.SKUs o)) o)
                (scanned_item t d)) as (o' & d' & Ho' & Hd' & F & T & C & P & Q & S).
    { subst s1. simpl. apply dict_get_set_same. }
    { simpl. apply dict_get_set_same. }
    fold (scan_repeat order_id sku clock).
    destruct (scan_all (scan_repeat order_id sku clock) s1) as [rs st2].
    cbn [snd] in *. exists o', d'.
    split; [exact Ho'|]. split; [exact Hd'|].
    split; [destruct F as (F1 & F2 & F3 & F4); now repeat split|].
    split; [exact T|]. split; [exact C|]. split; [exact P|]. split; [exact Q|].
    rewrite S. cbn [scanned_item Item.Scanned List.length]. lia.
Qed.

(** * The claims *)

(** C10: a scan request whose [orderId] or [sku] is absent or the empty
    string is answered "Missing required fields" with status 400, an answer
    distinct from the not-found one; this holds for every store, so no
    lookup decides it, and the store with all its orders and the log is
    returned as it was. *)
Theorem C10_missing_fields_before_lookup :
  forall orderId sku scan_time w st,
    orderId = None \/ orderId = Some "" \/ sku = None \/ sku = Some "" ->
    scan_order orderId sku scan_time w st = (missing_fields, st)
    /\ missing_fields <> not_found
    /\ http_status missing_fields = 400
    /\ message missing_fields = Plain "Missing required fields".
Proof.
  intros orderId sku scan_time w st H. split; [|repeat split; discriminate].
  unfold scan_order.
  destruct H as [-> | [-> | [-> | ->]]]; simpl; try reflexivity.
  - now rewrite orb_true_r.
  - now rewrite orb_true_r.
Qed.

(** An empty sku against a store that holds order 1001. *)
Lemma C10_witness :
  (Some "1001" = None \/ Some "1001" = Some "" \/
   Some "" = (None : option string) \/ Some "" = Some "") /\
  scan_order (Some "1001") (Some "") t0 w0 after_A1 = (missing_fields, after_A1).
Proof.
  split.
  - right. right. right. reflexivity.
  - apply (C10_missing_fields_before_lookup (Some "1001") (Some "") t0 w0 after_A1).
    right. right. right. reflexivity.
Defined.

(** C4, as stated, fails: the order [""] is not in the empty store, yet
    the scan is not answered with the not-found response (it is answered
    "Missing required fields"). *)
Lemma C4_counterexample_empty_order_id :
  dict_get "" (orders_db empty_store) = None /\
  fst (scan_order (Some "") (Some "A1") t0 w0 empty_store) <> not_found /\
  fst (scan_order (Some "") (Some "A1") t0 w0 empty_store) = missing_fields.
Proof. repeat split. discriminate. Qed.

(** C4, amended: for every non-empty [orderID] and non-empty [sku], the
    scan is answered not-found (404) exactly when the order is not in the
    store or the sku is not a key of that order's line items, and then the
    store, orders, line items and log alike, is returned as it was. *)
Theorem C4_not_found_iff_absent :
  forall order_id sku scan_time w st,
    order_id <> "" -> sku <> "" ->
    (fst (scan_order (Some order_id) (Some sku) scan_time w st) = not_found <->
       (dict_get order_id (orders_db st) = None \/
        exists o, dict_get order_id (orders_db st) = Some o /\
                  dict_get sku (Order.SKUs o) = None))
    /\ (fst (scan_order (Some order_id) (Some sku) scan_time w st) = not_found ->
        snd (scan_order (Some order_id) (Some sku) scan_time w st) = st).
Proof.
  intros order_id sku scan_time w st H1 H2.
  destruct (item_at order_id sku (orders_db st)) as [d|] eqn:E.
  - unfold item_at in E.
    destruct (dict_get order_id (orders_db st)) as [o|] eqn:Ho; [|discriminate].
    rewrite (scan_order_found _ _ scan_time w st o d H1 H2 Ho E). simpl. split.
    + split; [discriminate|].
      intros [H | (o' & [= <-] & H)]; congruence.
    + discriminate.
  - rewrite (scan_order_absent _ _ scan_time w st H1 H2 E). simpl.
    split; [|reflexivity]. split; [|reflexivity]. intros _.
    unfold item_at in E.
    destruct (dict_get order_id (orders_db st)) as [o|]; [|now left].
    right. now exists o.
Qed.

(** Scenario C of the specification: an unknown order. *)
Lemma C4_witness :
  "9999" <> "" /\ "A1" <> "" /\
  fst (scan_order (Some "9999") (Some "A1") t0 w0 after_A1) = not_found /\
  snd (scan_order (Some "9999") (Some "A1") t0 w0 after_A1) = after_A1.
Proof.
  assert (H1 : "9999" <> "") by discriminate.
  assert (H2 : "A1" <> "") by discriminate.
  destruct (C4_not_found_iff_absent "9999" "A1" t0 w0 after_A1 H1 H2) as [Hiff Hsame].
  assert (Hnf : fst (scan_order (Some "9999") (Some "A1") t0 w0 after_A1) = not_found).
  { apply Hiff. left. reflexivity. }
  exact (conj H1 (conj H2 (conj Hnf (Hsame Hnf)))).
Defined.




(** ** Listing *)

Lemma orders_list_cons order_id o db :
  orders_list ((order_id, o) :: db) =
    (map (fun '(sku, details) => line_view order_id o sku details) (Order.SKUs o)
     ++ orders_list db)%list.
Proof. reflexivity. Qed.

Lemma In_orders_list v db :
  In v (orders_list db) <->
  exists order_id o sku d,
    In (order_id, o) db /\ In (sku, d) (Order.SKUs o) /\ v = line_view order_id o sku d.
Proof.
  unfold orders_list. rewrite in_flat_map. split.
  - intros ([order_id o] & Hin & Hv). apply in_map_iff in Hv.
    destruct Hv as ([sku d] & <- & Hd). now exists order_id, o, sku, d.
  - intros (order_id & o & sku & d & Hin & Hd & ->).
    exists (order_id, o). split; [exact Hin|].
    apply in_map_iff. now exists (sku, d).
Qed.

(** Among the views of one order, the ones with a given sku. *)
Lemma filter_views_of_order order_id o sku skus :
  NoDup (dict_keys skus) ->
  filter (fun v => String.eqb (View.id v) order_id && String.eqb (View.sku v) sku)
         (map (fun '(s, details) => line_view order_id o s details) skus)
  = match dict_get sku skus with
    | Some d => [line_view order_id o sku d]
    | None => []
    end.
Proof.
  induction skus as [|[s d] skus IH]; simpl; intros Hnd; [reflexivity|].
  inversion Hnd as [|? ? Hnotin Hnd']; subst.
  rewrite String.eqb_refl. simpl. rewrite (String.eqb_sym s sku).
  destruct (String.eqb sku s) eqn:E.
  - apply String.eqb_eq in E. subst s. rewrite (IH Hnd').
    apply dict_get_None in Hnotin. now rewrite Hnotin.
  - now apply IH.
Qed.

(** The views of another order never match. *)
Lemma filter_views_other_order order_id k o sku skus :
  k <> order_id ->
  filter (fun v => String.eqb (View.id v) order_id && String.eqb (View.sku v) sku)
         (map (fun '(s, details) => line_view k o s details) skus) = [].
Proof.
  intros Hne. induction skus as [|[s d] skus IH]; simpl; [reflexivity|].
  apply String.eqb_neq in Hne. now rewrite Hne.
Qed.

Lemma filter_orders_list order_id sku db :
  wf_db db ->
  filter (fun v => String.eqb (View.id v) order_id && String.eqb (View.sku v) sku)
         (orders_list db)
  = match dict_get order_id db with
    | Some o =>
        match dict_get sku (Order.SKUs o) with
        | Some d => [line_view order_id o sku d]
        | None => []
        end
    | None => []
    end.
Proof.
  intros [Hnd Hin]. induction db as [|[k o] db IH]; [reflexivity|].
  rewrite orders_list_cons, filter_app. simpl dict_get.
  inversion Hnd as [|? ? Hnotin Hnd']; subst.
  assert (IH' := IH Hnd' (fun a b H => Hin a b (or_intror H))). clear IH.
  destruct (String.eqb order_id k) eqn:E.
  - apply String.eqb_eq in E. subst k.
    rewrite filter_views_of_order by (apply (Hin order_id o); now left).
    rewrite IH'. apply dict_get_None in Hnotin. rewrite Hnotin.
    now rewrite app_nil_r.
  - apply String.eqb_neq in E.
    rewrite filter_views_other_order by congruence. exact IH'.
Qed.

Lemma wf_db_get order_id o db :
  wf_db db -> dict_get order_id db = Some o -> NoDup (dict_keys (Order.SKUs o)).
Proof. intros [_ H] Ho. eapply H. eapply dict_get_In. exact Ho. Qed.

(** C6: the listing returned by [get_orders] has exactly one record for
    each (order, SKU) pair of the store and no other record; each record
    carries the order's state, city and payment and the item's fields, and
    its [status] is computed from the two counts held at that moment,
    "Fulfilled" when [Scanned >= Quantity] and "Pending" otherwise. (A line
    item has no status field of its own.) *)
Theorem C6_one_view_per_line_item :
  forall st,
    wf_db (orders_db st) ->
    data (get_orders st) = Some (orders_list (orders_db st))
    /\ (forall order_id sku o d,
          dict_get order_id (orders_db st) = Some o ->
          dict_get sku (Order.SKUs o) = Some d ->
          filter (fun v => String.eqb (View.id v) order_id && String.eqb (View.sku v) sku)
                 (orders_list (orders_db st))
          = [line_view order_id o sku d])
    /\ (forall v,
          In v (orders_list (orders_db st)) ->
          exists o d,
            dict_get (View.id v) (orders_db st) = Some o /\
            dict_get (View.sku v) (Order.SKUs o) = Some d /\
            View.state v = Order.State o /\
            View.city v = Order.City o /\
            View.payment v = Order.Payment o /\
            View.title v = Item.Title d /\
            View.color v = Item.Color d /\
            View.price v = Item.Price d /\
            View.quantity v = Item.Quantity d /\
            View.scanned v = Item.Scanned d /\
            View.status v =
              (if Item.Quantity d <=? Item.Scanned d then "Fulfilled" else "Pending")).
Proof.
  intros st Hwf. split; [reflexivity|]. split.
  - intros order_id sku o d Ho Hd.
    rewrite (filter_orders_list _ _ _ Hwf). now rewrite Ho, Hd.
  - intros v Hv. apply In_orders_list in Hv.
    destruct Hv as (order_id & o & sku & d & Hin & Hd & ->).
    exists o, d. simpl. destruct Hwf as [Hnd Hskus].
    split; [now apply In_dict_get|].
    split; [apply In_dict_get; [now apply (Hskus order_id o) | exact Hd]|].
    repeat split.
Qed.

(** ** Key uniqueness is kept by every operation *)

Lemma wf_db_empty : wf_db [].
Proof. split; [constructor | intros ? ? []]. Qed.

Lemma wf_db_set k o db :
  wf_db db -> NoDup (dict_keys (Order.SKUs o)) -> wf_db (dict_set k o db).
Proof.
  intros [Hnd Hin] Ho. split; [now apply dict_set_NoDup|].
  intros k0 o0 H. destruct (dict_set_In _ _ _ _ _ H) as [[_ ->] | H'];
    [exact Ho | eapply Hin; exact H'].
Qed.

Lemma ensure_order_wf row db db1 :
  ensure_order row db = inr db1 -> wf_db db -> wf_db db1.
Proof.
  intros H Hwf. destruct (ensure_order_inv _ _ _ H) as [[_ ->] | [_ (p & _ & ->)]];
    [exact Hwf|].
  apply wf_db_set; [exact Hwf | constructor].
Qed.

Lemma process_row_wf row db db' r :
  process_row row db = (db', r) -> wf_db db -> wf_db db'.
Proof.
  intros H Hwf. destruct r as [e|].
  - destruct (process_row_raise_inv _ _ _ _ H) as [[_ ->] | [E _]];
      [exact Hwf | eapply ensure_order_wf; eassumption].
  - destruct (process_row_ok_inv _ _ _ H) as (db1 & o & d & E & Ho & _ & ->).
    pose proof (ensure_order_wf _ _ _ E Hwf) as Hwf1.
    apply wf_db_set; [exact Hwf1|]. simpl.
    apply dict_set_NoDup. eapply wf_db_get; eassumption.
Qed.

Lemma process_rows_wf rows : forall db n db' res,
  process_rows rows db n = (db', res) -> wf_db db -> wf_db db'.
Proof.
  induction rows as [|row rest IH]; simpl; intros db n db' res H Hwf.
  - now injection H as <- _.
  - destruct (process_row row db) as [db1 [e|]] eqn:E.
    + injection H as <- _. eapply process_row_wf; eassumption.
    + eapply IH; [exact H | eapply process_row_wf; eassumption].
Qed.

Lemma upload_file_wf file w st :
  wf_db (orders_db st) -> wf_db (orders_db (snd (upload_file file w st))).
Proof.
  intros Hwf. unfold upload_file, processing_failed.
  destruct file as [file|]; [|exact Hwf].
  destruct (negb _); [exact Hwf|].
  destruct (frame file) as [e | rows]; [exact Hwf|].
  destruct (process_rows rows (orders_db st) 0) as [db [e | n]] eqn:E; simpl;
    eapply process_rows_wf; eassumption.
Qed.

Lemma scan_order_wf orderId sku scan_time w st :
  wf_db (orders_db st) ->
  wf_db (orders_db (snd (scan_order orderId sku scan_time w st))).
Proof.
  intros Hwf.
  destruct (scan_order_cases orderId sku scan_time w st)
    as [[_ ->] | [(a & b & _ & _ & _ & _ & _ & ->)
                 | (a & b & o & d & _ & _ & _ & _ & Ho & Hd & ->)]];
    try exact Hwf.
  simpl. apply wf_db_set; [exact Hwf|]. simpl.
  apply dict_set_NoDup. eapply wf_db_get; eassumption.
Qed.

(** Every store of a run has dictionaries with distinct keys. *)
Lemma reachable_wf st : reachable st -> wf_db (orders_db st).
Proof.
  induction 1 as [| file w st _ IH | orderId sku scan_time w st _ IH].
  - apply wf_db_empty.
  - now apply upload_file_wf.
  - now apply scan_order_wf.
Qed.

(** Scenario A followed by one scan: the listing has one record per line
    item, with the order's fields and the status of the moment. *)
Lemma C6_witness :
  wf_db (orders_db after_A1_A2_scanned) /\
  orders_list (orders_db after_A1_A2_scanned) =
    [View.mk "1001" "A1" (Py.CStr "Shirt") (Py.CStr "Red") 3 0 "Pending" "15,000"
             (Py.CStr "Tehran") (Py.CStr "Tehran") (Some "20,000");
     View.mk "1001" "A2" (Py.CStr "Hat") (Py.CStr "Blue") 1 1 "Fulfilled" "5,000"
             (Py.CStr "Tehran") (Py.CStr "Tehran") (Some "20,000")] /\
  filter (fun v => String.eqb (View.id v) "1001" && String.eqb (View.sku v) "A2")
         (orders_list (orders_db after_A1_A2_scanned))
  = [View.mk "1001" "A2" (Py.CStr "Hat") (Py.CStr "Blue") 1 1 "Fulfilled" "5,000"
             (Py.CStr "Tehran") (Py.CStr "Tehran") (Some "20,000")].
Proof.
  assert (Hwf : wf_db (orders_db after_A1_A2_scanned)).
  { apply scan_order_wf, upload_file_wf, wf_db_empty. }
  split; [exact Hwf|]. split; [reflexivity|].
  destruct (C6_one_view_per_line_item after_A1_A2_scanned Hwf) as (_ & Hone & _).
  exact (Hone "1001" "A2"
           (Order.mk [("A1", Item.mk (Py.CStr "Shirt") (Py.CStr "Red") 3 0 "15,000" None);
                      ("A2", Item.mk (Py.CStr "Hat") (Py.CStr "Blue") 1 1 "5,000" (Some t0))]
                     (Py.CStr "Tehran") (Py.CStr "Tehran") (Some "20,000") "Pending")
           (Item.mk (Py.CStr "Hat") (Py.CStr "Blue") 1 1 "5,000" (Some t0))
           eq_refl eq_refl).
Defined.

(** ** More on one row *)

Lemma fresh_item_inv row d :
  fresh_item row = inr d ->
  Item.Title d = Row.Title row /\ Item.Color d = Row.Color row /\
  quantity_of row = inr (Item.Quantity d) /\ price_of row = inr (Item.Price d) /\
  Item.Scanned d = 0 /\ Item.ScanTimestamp d = None.
Proof.
  unfold fresh_item.
  destruct (quantity_of row) as [e | q]; [discriminate|].
  destruct (price_of row) as [e | p]; [discriminate|].
  intros [= <-]. simpl. repeat split.
Qed.

Lemma fresh_item_raises_quantity row e :
  quantity_of row = inl e -> fresh_item row = inl e.
Proof. unfold fresh_item. now intros ->. Qed.

(** A row whose conversions succeed is processed. *)
Lemma process_row_ok row db db1 d :
  ensure_order row db = inr db1 ->
  fresh_item row = inr d ->
  exists o,
    dict_get (Py.str (Row.OrderID row)) db1 = Some o /\
    process_row row db =
      (dict_set (Py.str (Row.OrderID row))
         (Order.set_SKUs (dict_set (Py.str (Row.SKU row)) d (Order.SKUs o)) o) db1,
       None).
Proof.
  intros E Hd. destruct (ensure_order_present _ _ _ E) as [o Ho].
  exists o. split; [exact Ho|].
  unfold process_row, put_item. now rewrite E, Hd, Ho.
Qed.

Lemma ensure_order_ok row db p :
  payment_of row = inr p -> exists db1, ensure_order row db = inr db1.
Proof.
  intros Hp. unfold ensure_order. destruct (dict_mem _ db); [now exists db|].
  rewrite Hp. eexists. reflexivity.
Qed.

(** A row that raises leaves every order that existed as it was. *)
Lemma process_row_raise_keeps row db db' e order_id o :
  process_row row db = (db', Some e) ->
  dict_get order_id db = Some o -> dict_get order_id db' = Some o.
Proof.
  intros H Ho. destruct (process_row_raise_inv _ _ _ _ H) as [[_ ->] | [E _]];
    [exact Ho | eapply ensure_order_get; eassumption].
Qed.

(** C7: when a record is ingested whose order identifier is already in
    the store, that order keeps its state, city, payment and status; of the
    order only the line-item mapping changes, by the assignment under the
    record's sku, and every other order stays as it was. The same holds
    through all the records that follow: the fields an order got from the
    record that created it are the ones it keeps. *)
Theorem C7_order_fields_first_write_wins :
  forall row db o db' r,
    dict_get (Py.str (Row.OrderID row)) db = Some o ->
    process_row row db = (db', r) ->
    (exists o',
       dict_get (Py.str (Row.OrderID row)) db' = Some o' /\
       Order.State o' = Order.State o /\
       Order.City o' = Order.City o /\
       Order.Payment o' = Order.Payment o /\
       Order.Status o' = Order.Status o /\
       Order.SKUs o' =
         match r, fresh_item row with
         | None, inr d => dict_set (Py.str (Row.SKU row)) d (Order.SKUs o)
         | _, _ => Order.SKUs o
         end)
    /\ (forall order_id,
          order_id <> Py.str (Row.OrderID row) ->
          dict_get order_id db' = dict_get order_id db)
    /\ (forall rest n db'' res,
          process_rows rest db' n = (db'', res) ->
          exists o'',
            dict_get (Py.str (Row.OrderID row)) db'' = Some o'' /\
            Order.State o'' = Order.State o /\
            Order.City o'' = Order.City o /\
            Order.Payment o'' = Order.Payment o /\
            Order.Status o'' = Order.Status o).
Proof.
  intros row db o db' r Ho H.
  assert (E : ensure_order row db = inr db).
  { unfold ensure_order, dict_mem. now rewrite Ho. }
  assert (Hfirst : exists o',
       dict_get (Py.str (Row.OrderID row)) db' = Some o' /\
       same_order_fields o o' /\
       Order.SKUs o' =
         match r, fresh_item row with
         | None, inr d => dict_set (Py.str (Row.SKU row)) d (Order.SKUs o)
         | _, _ => Order.SKUs o
         end).
  { destruct r as [e|].
    - exists o. split; [eapply process_row_raise_keeps; eassumption|].
      split; [apply same_order_fields_refl | reflexivity].
    - destruct (process_row_ok_inv _ _ _ H) as (db1 & o1 & d & E1 & Ho1 & Hd & ->).
      rewrite E in E1. injection E1 as <-. rewrite Ho in Ho1. injection Ho1 as <-.
      rewrite Hd. eexists. split; [apply dict_get_set_same|].
      split; [repeat split | reflexivity]. }
  destruct Hfirst as (o' & Ho' & F & Hskus).
  split; [|split].
  - exists o'. destruct F as (F1 & F2 & F3 & F4). now repeat split.
  - intros order_id Hne. destruct r as [e|].
    + destruct (process_row_raise_inv _ _ _ _ H) as [[_ ->] | [E1 _]]; [reflexivity|].
      rewrite E in E1. now injection E1 as <-.
    + destruct (process_row_ok_inv _ _ _ H) as (db1 & o1 & d & E1 & _ & _ & ->).
      rewrite E in E1. injection E1 as <-. now apply dict_get_set_other.
  - intros rest n db'' res Hrest.
    destruct (process_rows_order_fields _ _ _ _ _ _ _ Hrest Ho') as (o'' & Ho'' & F').
    exists o''. split; [exact Ho''|].
    destruct (same_order_fields_trans _ _ _ F F') as (F1 & F2 & F3 & F4).
    now repeat split.
Qed.

(** Scenario A of the specification: the second row names other state,
    city and payment, and the order keeps those of the first row. *)
Lemma C7_witness :
  dict_get "1001" (orders_db after_A1) <> None /\
  (Row.State row_A2, Row.City row_A2, payment_of row_A2)
    = (Py.CStr "Fars", Py.CStr "Shiraz", inr (Some "99")) /\
  exists o',
    dict_get "1001" (fst (process_row row_A2 (orders_db after_A1))) = Some o' /\
    Order.State o' = Py.CStr "Tehran" /\
    Order.City o' = Py.CStr "Tehran" /\
    Order.Payment o' = Some "20,000" /\
    List.length (Order.SKUs o') = 2%nat.
Proof.
  split; [discriminate|]. split; [reflexivity|].
  destruct (C7_order_fields_first_write_wins row_A2 (orders_db after_A1)
              (Order.mk [("A1", Item.mk (Py.CStr "Shirt") (Py.CStr "Red") 3 0 "15,000" None)]
                        (Py.CStr "Tehran") (Py.CStr "Tehran") (Some "20,000") "Pending")
              (fst (process_row row_A2 (orders_db after_A1)))
              (snd (process_row row_A2 (orders_db after_A1)))
              eq_refl eq_refl) as ((o' & Ho' & F1 & F2 & F3 & _ & Hskus) & _).
  exists o'. split; [exact Ho'|]. split; [exact F1|]. split; [exact F2|].
  split; [exact F3|]. rewrite Hskus. reflexivity.
Defined.

(** The record that creates an order gives it its order-level fields. *)
Lemma new_order_fields_from_row row db db' :
  dict_get (Py.str (Row.OrderID row)) db = None ->
  process_row row db = (db', None) ->
  exists o',
    dict_get (Py.str (Row.OrderID row)) db' = Some o' /\
    Order.State o' = Row.State row /\
    Order.City o' = Row.City row /\
    payment_of row = inr (Order.Payment o') /\
    Order.Status o' = "Pending".
Proof.
  intros Hnone H.
  destruct (process_row_ok_inv _ _ _ H) as (db1 & o1 & d & E & Ho1 & _ & ->).
  destruct (ensure_order_inv _ _ _ E) as [[Hin _] | [_ (p & Hp & ->)]]; [congruence|].
  rewrite dict_get_set_same in Ho1. injection Ho1 as <-.
  eexists. split; [apply dict_get_set_same|]. simpl. now repeat split.
Qed.

(** ** The upload as a whole *)

Lemma upload_file_rows name rows w st :
  endswith name ".xlsx" = true ->
  upload_file (Some (mkUpload name (inr rows))) w st =
    match process_rows rows (orders_db st) 0 with
    | (db, inl e) => processing_failed e w db (logs_db st)
    | (db, inr processed_count) =>
        (mkResponse 200 true (Plain "File uploaded and processed successfully")
           (Some processed_count),
         mkStore db
           (add_log w "File uploaded successfully" "success"
              (Some (Plain ("Processed " ++ Py.str_of_int processed_count ++ " orders")))
              (logs_db st)))
    end.
Proof. intros H. unfold upload_file. simpl. now rewrite H. Qed.



(** C3, as stated, fails: with a second row whose quantity is text, the
    response carries no processed count and no list of errors, and the
    third row, a valid one, was never processed. *)
Lemma C3_counterexample_batch_aborted :
  fst (upload_file (xlsx [row_A1; row_bad_quantity; row_A2]) w0 empty_store)
    = mkResponse 500 false (StrOf "Error processing file: " (Py.ValueError_int "abc")) None
  /\ item_at "1001" "A2"
       (orders_db (snd (upload_file (xlsx [row_A1; row_bad_quantity; row_A2]) w0 empty_store)))
     = None
  /\ fst (upload_file (xlsx [row_A1; row_A2]) w0 empty_store)
    = mkResponse 200 true (Plain "File uploaded and processed successfully") (Some 2).
Proof. repeat split. Qed.

(** C3, amended: for every batch of rows, either no row raises, and the
    upload returns a processed count equal to the number of rows of the
    batch (no row is excluded, no list of errors is returned); or some row
    raises after the rows before it were processed, and the upload stops at
    that row and returns only the error response, status 500, without a
    count. *)
Theorem C3_processed_count_or_abort :
  forall name rows w st,
    endswith name ".xlsx" = true ->
    (exists db,
       process_rows rows (orders_db st) 0 = (db, inr (Z.of_nat (List.length rows))) /\
       upload_file (Some (mkUpload name (inr rows))) w st
         = (mkResponse 200 true (Plain "File uploaded and processed successfully")
              (Some (Z.of_nat (List.length rows))),
            mkStore db
              (logs_db st ++
               [Log.mk (uuid4 w) (now w) "File uploaded successfully" "success"
                  (Some (Plain ("Processed "
                                ++ Py.str_of_int (Z.of_nat (List.length rows))
                                ++ " orders")))])%list))
    \/
    (exists pre bad post db1 db2 e,
       rows = (pre ++ bad :: post)%list /\
       process_rows pre (orders_db st) 0 = (db1, inr (Z.of_nat (List.length pre))) /\
       process_row bad db1 = (db2, Some e) /\
       fst (upload_file (Some (mkUpload name (inr rows))) w st)
         = mkResponse 500 false (StrOf "Error processing file: " e) None /\
       orders_db (snd (upload_file (Some (mkUpload name (inr rows))) w st)) = db2).
Proof.
  intros name rows w st Hname. rewrite (upload_file_rows _ _ _ _ Hname).
  destruct (process_rows rows (orders_db st) 0) as [db [e | m]] eqn:E.
  - right. destruct (process_rows_raise_inv _ _ _ _ _ E)
      as (pre & bad & post & db1 & -> & Hpre & Hbad).
    exists pre, bad, post, db1, db, e. now repeat split.
  - left. exists db. pose proof (process_rows_count _ _ _ _ _ E) as ->.
    simpl. now split.
Qed.

(** Scenario A of the specification: two good rows. *)
Lemma C3_witness :
  endswith "orders.xlsx" ".xlsx" = true /\
  exists db,
    upload_file (xlsx [row_A1; row_A2]) w0 empty_store
      = (mkResponse 200 true (Plain "File uploaded and processed successfully") (Some 2),
         mkStore db
           [Log.mk (uuid4 w0) (now w0) "File uploaded successfully" "success"
                   (Some (Plain "Processed 2 orders"))]).
Proof.
  split; [reflexivity|].
  destruct (C3_processed_count_or_abort "orders.xlsx" [row_A1; row_A2] w0 empty_store eq_refl)
    as [(db & _ & H) | (pre & bad & post & db1 & db2 & e & _ & _ & _ & H & _)].
  - exists db. exact H.
  - discriminate H.
Defined.

(** C2, as stated, fails: a batch of a row whose order identifier is an
    empty cell and a row whose order identifier is the empty string is
    answered as a success with both rows counted, and an order exists
    afterwards under the key ["nan"] and another under the key [""]. *)
Lemma C2_counterexample_blank_id_creates_order :
  Py.notna (Row.OrderID row_nan_id) = false /\
  Row.OrderID row_empty_id = Py.CStr "" /\
  fst (upload_file (xlsx [row_nan_id; row_empty_id]) w0 empty_store)
    = mkResponse 200 true (Plain "File uploaded and processed successfully") (Some 2) /\
  dict_keys (orders_db (snd (upload_file (xlsx [row_nan_id; row_empty_id]) w0 empty_store)))
    = ["nan"; ""].
Proof. repeat split. Qed.

(** C2, amended: a row whose order identifier is absent or empty is not
    skipped and no error is recorded for it. Its key is the text of the
    cell, ["None"], ["nan"] or [""]; when its payment, quantity and price
    convert, the row is processed as any other: afterwards an order exists
    under that key and holds the row's line item, the counter advances by
    one, and the loop goes on with the remaining rows. *)
Theorem C2_blank_order_id_is_processed :
  forall row db p d,
    blank (Row.OrderID row) = true ->
    payment_of row = inr p ->
    fresh_item row = inr d ->
    In (Py.str (Row.OrderID row)) ["None"; "nan"; ""]
    /\ exists db',
         process_row row db = (db', None) /\
         item_at (Py.str (Row.OrderID row)) (Py.str (Row.SKU row)) db' = Some d /\
         forall rest n, process_rows (row :: rest) db n = process_rows rest db' (n + 1).
Proof.
  intros row db p d Hblank Hp Hd. split.
  - destruct (Row.OrderID row) as [| z | f | s]; simpl in *; try discriminate.
    + now left.
    + destruct f; try discriminate. right. now left.
    + apply String.eqb_eq in Hblank. subst. right. right. now left.
  - destruct (ensure_order_ok row db p Hp) as [db1 E].
    destruct (process_row_ok row db db1 d E Hd) as (o & Ho & Hrow).
    eexists. split; [exact Hrow|]. split.
    + unfold item_at. rewrite dict_get_set_same. simpl. apply dict_get_set_same.
    + intros rest n. simpl. now rewrite Hrow.
Qed.

(** An empty cell as order identifier, on the empty store. *)
Lemma C2_witness :
  blank (Row.OrderID row_nan_id) = true /\
  exists db',
    process_row row_nan_id [] = (db', None) /\
    item_at "nan" "D1" db' = Some (Item.mk (Py.CStr "Sock") (Py.CStr "White") 2 0 "1,000" None).
Proof.
  split; [reflexivity|].
  destruct (C2_blank_order_id_is_processed row_nan_id [] (Some "2,000")
              (Item.mk (Py.CStr "Sock") (Py.CStr "White") 2 0 "1,000" None)
              eq_refl eq_refl eq_refl) as (_ & db' & Hrow & Hitem & _).
  exists db'. split; [exact Hrow | exact Hitem].
Defined.

(** C8, as stated, fails twice: a negative quantity is stored negative,
    and a quantity that is text makes the whole upload fail with status
    500 instead of yielding 0. *)
Lemma C8_counterexample_negative_and_text :
  option_map Item.Quantity
    (item_at "1003" "C1"
       (orders_db (snd (upload_file (xlsx [row_negative_quantity]) w0 empty_store))))
    = Some (-3)
  /\ Row.Quantity row_bad_quantity = Py.CStr "abc"
  /\ fst (upload_file (xlsx [row_bad_quantity]) w0 empty_store)
    = mkResponse 500 false (StrOf "Error processing file: " (Py.ValueError_int "abc")) None
  /\ item_at "1002" "B1"
       (orders_db (snd (upload_file (xlsx [row_bad_quantity]) w0 empty_store)))
    = None.
Proof. repeat split. Qed.

(** C8, amended: for every row that is processed, the stored quantity is
    0 when the cell is missing ([None] or NaN) and [int] of the cell
    otherwise, so an integer is stored as it is, with its sign; and when
    [int] raises on the cell (text that is not an integer literal, an
    infinite float), no line item is written for the row and the loop
    stops with that exception, which fails the batch. *)
Theorem C8_quantity_is_int_of_cell :
  forall row db,
    (forall db',
       process_row row db = (db', None) ->
       exists d,
         item_at (Py.str (Row.OrderID row)) (Py.str (Row.SKU row)) db' = Some d /\
         (Py.notna (Row.Quantity row) = false -> Item.Quantity d = 0) /\
         (Py.notna (Row.Quantity row) = true ->
          Py.int (Row.Quantity row) = inr (Item.Quantity d)) /\
         (forall z, Row.Quantity row = Py.CInt z -> Item.Quantity d = z))
    /\ (forall e db1,
          Py.notna (Row.Quantity row) = true ->
          Py.int (Row.Quantity row) = inl e ->
          ensure_order row db = inr db1 ->
          process_row row db = (db1, Some e) /\
          item_at (Py.str (Row.OrderID row)) (Py.str (Row.SKU row)) db1
            = item_at (Py.str (Row.OrderID row)) (Py.str (Row.SKU row)) db /\
          forall rest n, process_rows (row :: rest) db n = (db1, inl e)).
Proof.
  intros row db. split.
  - intros db' H.
    destruct (process_row_ok_inv _ _ _ H) as (db1 & o & d & E & Ho & Hd & ->).
    exists d. split.
    { unfold item_at. rewrite dict_get_set_same. simpl. apply dict_get_set_same. }
    destruct (fresh_item_inv _ _ Hd) as (_ & _ & Hq & _).
    unfold quantity_of in Hq. repeat split.
    + intros Hna. rewrite Hna in Hq. now injection Hq as <-.
    + intros Hna. now rewrite Hna in Hq.
    + intros z Hz. rewrite Hz in Hq. simpl in Hq. now injection Hq as <-.
  - intros e db1 Hna He E.
    assert (Hrow : process_row row db = (db1, Some e)).
    { unfold process_row, put_item. rewrite E.
      rewrite (fresh_item_raises_quantity row e); [reflexivity|].
      unfold quantity_of. now rewrite Hna. }
    split; [exact Hrow|]. split.
    + eapply ensure_order_item_at. exact E.
    + intros rest n. simpl. now rewrite Hrow.
Qed.

(** A negative quantity is stored; a quantity that is text raises. *)
Lemma C8_witness :
  (exists d,
     item_at "1003" "C1" (fst (process_row row_negative_quantity [])) = Some d /\
     Item.Quantity d = -3) /\
  Py.int (Row.Quantity row_bad_quantity) = inl (Py.ValueError_int "abc") /\
  snd (process_row row_bad_quantity []) = Some (Py.ValueError_int "abc").
Proof.
  split; [|split; [reflexivity|]].
  - destruct (proj1 (C8_quantity_is_int_of_cell row_negative_quantity [])
                (fst (process_row row_negative_quantity [])) eq_refl)
      as (d & Hd & _ & _ & Hz).
    exists d. split; [exact Hd | exact (Hz (-3) eq_refl)].
  - destruct (proj2 (C8_quantity_is_int_of_cell row_bad_quantity [])
                (Py.ValueError_int "abc")
                [("1002", Order.mk [] (Py.CStr "Yazd") (Py.CStr "Yazd") (Some "7,000") "Pending")]
                eq_refl eq_refl eq_refl) as (Hrow & _).
    now rewrite Hrow.
Defined.

(** C1, as stated, fails: after row A1 is ingested and scanned once its
    count is 1, and ingesting the same row again brings the count back to
    0. *)
Lemma C1_counterexample_reingest_resets :
  scanned_count "1001" "A1" after_A1_scanned = Some 1 /\
  after_A1_again = snd (upload_file (xlsx [row_A1]) w0 after_A1_scanned) /\
  scanned_count "1001" "A1" after_A1_again = Some 0.
Proof. repeat split. Qed.

(** C1, amended: for every (orderID, SKU) pair in the store, the scanned
    count never decreases across any sequence of scan requests. A row that
    is ingested for that same pair replaces the line item: title, color,
    quantity and price are those of the row, the count is 0 again and the
    scan timestamp is gone, whatever the count was. A row for another pair,
    or a row that raises, leaves the line item of the pair as it was. *)
Theorem C1_scanned_kept_by_scans_reset_by_ingest :
  forall st order_id sku d,
    item_at order_id sku (orders_db st) = Some d ->
    (forall calls,
       exists n',
         scanned_count order_id sku (scans calls st) = Some n' /\ Item.Scanned d <= n')
    /\ (forall row db',
          process_row row (orders_db st) = (db', None) ->
          order_id = Py.str (Row.OrderID row) ->
          sku = Py.str (Row.SKU row) ->
          exists d',
            item_at order_id sku db' = Some d' /\
            Item.Title d' = Row.Title row /\
            Item.Color d' = Row.Color row /\
            quantity_of row = inr (Item.Quantity d') /\
            price_of row = inr (Item.Price d') /\
            Item.Scanned d' = 0 /\
            Item.ScanTimestamp d' = None)
    /\ (forall row db' r,
          process_row row (orders_db st) = (db', r) ->
          r <> None \/ order_id <> Py.str (Row.OrderID row) \/ sku <> Py.str (Row.SKU row) ->
          item_at order_id sku db' = Some d).
Proof.
  intros st order_id sku d Hd. split; [|split].
  - intros calls. apply scans_scanned_mono. unfold scanned_count. now rewrite Hd.
  - intros row db' H -> ->.
    rewrite (process_row_item_at _ _ _ _ _ _ H). rewrite !String.eqb_refl. simpl.
    destruct (process_row_ok_inv _ _ _ H) as (_ & _ & d' & _ & _ & Hd' & _).
    rewrite Hd'. exists d'. split; [reflexivity|].
    destruct (fresh_item_inv _ _ Hd') as (H1 & H2 & H3 & H4 & H5 & H6).
    now repeat split.
  - intros row db' r H Hor.
    rewrite (process_row_item_at _ _ _ _ order_id sku H).
    destruct r as [e|]; [exact Hd|].
    destruct Hor as [Hr | [Hne | Hne]]; [congruence| |];
      apply String.eqb_neq in Hne; rewrite Hne; simpl;
      [exact Hd | now rewrite andb_false_r].
Qed.

(** Row A1 scanned once: more scans only raise the count, ingesting the
    row again sets it to 0. *)
Lemma C1_witness :
  item_at "1001" "A1" (orders_db after_A1_scanned)
    = Some (Item.mk (Py.CStr "Shirt") (Py.CStr "Red") 3 1 "15,000" (Some t0)) /\
  (exists n',
     scanned_count "1001" "A1" (scans (scan_repeat "1001" "A1" clock4) after_A1_scanned)
       = Some n' /\ 1 <= n') /\
  (exists d',
     item_at "1001" "A1" (fst (process_row row_A1 (orders_db after_A1_scanned))) = Some d' /\
     Item.Scanned d' = 0).
Proof.
  destruct (C1_scanned_kept_by_scans_reset_by_ingest after_A1_scanned "1001" "A1"
              (Item.mk (Py.CStr "Shirt") (Py.CStr "Red") 3 1 "15,000" (Some t0)) eq_refl)
    as (Hscans & Hsame & _).
  split; [reflexivity|]. split.
  - exact (Hscans (scan_repeat "1001" "A1" clock4)).
  - destruct (Hsame row_A1 (fst (process_row row_A1 (orders_db after_A1_scanned)))
                eq_refl eq_refl eq_refl) as (d' & Hd' & _ & _ & _ & _ & H0 & _).
    exists d'. split; [exact Hd' | exact H0].
Defined.

(** * Further properties of the code *)

(** ** The audit log *)

Lemma upload_file_log_growth file w st :
  exists entry, logs_db (snd (upload_file file w st)) = (logs_db st ++ [entry])%list.
Proof.
  unfold upload_file, processing_failed, add_log.
  destruct file as [file|]; [|eexists; reflexivity].
  destruct (negb (endswith (filename file) ".xlsx")); [eexists; reflexivity|].
  destruct (frame file) as [e | rows]; [eexists; reflexivity|].
  destruct (process_rows rows (orders_db st) 0) as [db [e | n]]; eexists; reflexivity.
Qed.

(** [upload_file], lines 106-191: whatever the outcome (no file, a wrong
    extension, a failure while reading, an exception in the loop, success),
    exactly one entry is appended to the log, stamped with the call's uuid
    and time; its status is "success" exactly when the response reports
    success and "error" otherwise, and the entries already there are
    untouched. *)
Theorem upload_logs_exactly_one_entry :
  forall file w st,
    exists entry,
      logs_db (snd (upload_file file w st)) = (logs_db st ++ [entry])%list
      /\ Log.id entry = uuid4 w
      /\ Log.timestamp entry = now w
      /\ Log.status entry
         = (if success (fst (upload_file file w st)) then "success" else "error").
Proof.
  intros file w st. unfold upload_file, processing_failed, add_log.
  destruct file as [file|]; [|eexists; simpl; repeat split].
  destruct (negb (endswith (filename file) ".xlsx")); [eexists; simpl; repeat split|].
  destruct (frame file) as [e | rows]; [eexists; simpl; repeat split|].
  destruct (process_rows rows (orders_db st) 0) as [db [e | n]];
    eexists; simpl; repeat split.
Qed.

Lemma scan_log_growth c st :
  logs_db (snd (scan c st))
  = (logs_db st ++ firstn (logged (Scan c) (success (fst (scan c st))))
                          (skipn (List.length (logs_db st)) (logs_db (snd (scan c st)))))%list
  /\ List.length (logs_db (snd (scan c st)))
     = (List.length (logs_db st) + logged (Scan c) (success (fst (scan c st))))%nat.
Proof.
  unfold scan.
  destruct (scan_order_cases (call_orderId c) (call_sku c) (call_time c) (call_stamp c) st)
    as [[_ ->] | [(a & b & _ & _ & _ & _ & _ & ->)
                 | (a & b & o & d & _ & _ & _ & _ & _ & _ & ->)]]; simpl.
  - rewrite app_nil_r. split; [reflexivity | lia].
  - rewrite app_nil_r. split; [reflexivity | lia].
  - rewrite skipn_app, skipn_all, Nat.sub_diag. simpl.
    split; [reflexivity | rewrite length_app; simpl; lia].
Qed.

Lemma handle_log_growth r st :
  exists new,
    logs_db (snd (handle r st)) = (logs_db st ++ new)%list
    /\ List.length new = logged r (fst (handle r st)).
Proof.
  destruct r as [file w | c]; simpl.
  - destruct (upload_file_log_growth file w st) as (entry & H).
    destruct (upload_file file w st) as [resp st']. simpl in *.
    exists [entry]. now split.
  - destruct (scan_log_growth c st) as [H L].
    destruct (scan c st) as [resp st']. simpl in *.
    eexists. split; [exact H|].
    apply (f_equal (@List.length _)) in H. rewrite length_app in H. lia.
Qed.

(** [add_log], [upload_file], [scan_order]: over any sequence of uploads
    and scans the log only grows at its end. The entries present at the
    start stay where they are, and the number of entries added is the
    number of uploads plus the number of scans that were answered with
    success: a scan that is rejected or finds nothing is not logged. *)
Theorem run_log_append_only :
  forall rs st,
    exists new,
      logs_db (snd (run rs st)) = (logs_db st ++ new)%list
      /\ List.length new = logged_all rs (fst (run rs st))
      /\ List.length (fst (run rs st)) = List.length rs.
Proof.
  induction rs as [|r rs IH]; intros st; simpl.
  - exists []. now rewrite app_nil_r.
  - destruct (handle_log_growth r st) as (new1 & H1 & L1).
    destruct (handle r st) as [ok st1]. simpl in *.
    destruct (IH st1) as (new2 & H2 & L2 & L3).
    destruct (run rs st1) as [oks st2]. simpl in *.
    exists (new1 ++ new2)%list. rewrite H2, H1, <- app_assoc.
    split; [reflexivity|]. rewrite length_app. split; lia.
Qed.

(** ** Uploads that never reach the loop *)

(** [upload_file], lines 108-132 and 186-191: a request without a file,
    a file whose name does not end in ".xlsx", and a file that cannot be
    saved or read are all refused with no data in the response, status 400
    for the first two and 500 for the third, and none of them changes any
    order. *)
Theorem upload_refused_keeps_orders :
  forall file w st,
    (file = None \/
     exists f, file = Some f /\
               (endswith (filename f) ".xlsx" = false \/ exists e, frame f = inl e)) ->
    orders_db (snd (upload_file file w st)) = orders_db st
    /\ success (fst (upload_file file w st)) = false
    /\ data (fst (upload_file file w st)) = None
    /\ http_status (fst (upload_file file w st))
       = match file with
         | None => 400
         | Some f => if endswith (filename f) ".xlsx" then 500 else 400
         end.
Proof.
  intros file w st [-> | (f & -> & H)]; [now repeat split|].
  unfold upload_file.
  destruct (endswith (filename f) ".xlsx") eqn:E; simpl.
  - destruct H as [H | [e He]]; [discriminate|]. rewrite He. now repeat split.
  - now repeat split.
Qed.

(** An upper-case extension is refused: the test is case sensitive. *)
Lemma upload_refused_keeps_orders_witness :
  endswith "ORDERS.XLSX" ".xlsx" = false /\
  orders_db (snd (upload_file (Some (mkUpload "ORDERS.XLSX" (inr [row_A2]))) w0 after_A1))
    = orders_db after_A1 /\
  http_status (fst (upload_file (Some (mkUpload "ORDERS.XLSX" (inr [row_A2]))) w0 after_A1))
    = 400.
Proof.
  split; [reflexivity|].
  destruct (upload_refused_keeps_orders
              (Some (mkUpload "ORDERS.XLSX" (inr [row_A2]))) w0 after_A1
              (or_intror (ex_intro _ (mkUpload "ORDERS.XLSX" (inr [row_A2]))
                            (conj eq_refl (or_introl eq_refl)))))
    as (H1 & _ & _ & H4).
  split; [exact H1 | exact H4].
Defined.

(** ** Invariants of the store *)

Lemma store_ok_set k o db :
  store_ok db -> order_ok o -> store_ok (dict_set k o db).
Proof.
  intros Hdb Ho k0 o0 H.
  destruct (dict_set_In _ _ _ _ _ H) as [[_ ->] | H']; [exact Ho | eapply Hdb; exact H'].
Qed.

Lemma order_ok_set_item s d o :
  order_ok o -> item_ok d -> order_ok (Order.set_SKUs (dict_set s d (Order.SKUs o)) o).
Proof.
  intros [Hst Hitems] Hd. split; [exact Hst|]. simpl.
  intros s0 d0 H.
  destruct (dict_set_In _ _ _ _ _ H) as [[_ ->] | H']; [exact Hd | eapply Hitems; exact H'].
Qed.

Lemma fresh_item_ok row d : fresh_item row = inr d -> item_ok d.
Proof.
  intros H. destruct (fresh_item_inv _ _ H) as (_ & _ & _ & _ & H0 & Hts).
  unfold item_ok. rewrite H0, Hts. repeat split; lia.
Qed.

Lemma scanned_item_ok t d : item_ok d -> item_ok (scanned_item t d).
Proof.
  intros [Hge _]. unfold item_ok. simpl. split; [lia|].
  split; [discriminate | lia].
Qed.

Lemma ensure_order_ok_inv row db db1 :
  ensure_order row db = inr db1 -> store_ok db -> store_ok db1.
Proof.
  intros H Hok. destruct (ensure_order_inv _ _ _ H) as [[_ ->] | [_ (p & _ & ->)]];
    [exact Hok|].
  apply store_ok_set; [exact Hok|]. split; [reflexivity | intros ? ? []].
Qed.

Lemma process_row_store_ok row db db' r :
  process_row row db = (db', r) -> store_ok db -> store_ok db'.
Proof.
  intros H Hok. destruct r as [e|].
  - destruct (process_row_raise_inv _ _ _ _ H) as [[_ ->] | [E _]];
      [exact Hok | eapply ensure_order_ok_inv; eassumption].
  - destruct (process_row_ok_inv _ _ _ H) as (db1 & o & d & E & Ho & Hd & ->).
    pose proof (ensure_order_ok_inv _ _ _ E Hok) as Hok1.
    apply store_ok_set; [exact Hok1|].
    apply order_ok_set_item; [|eapply fresh_item_ok; exact Hd].
    eapply Hok1. eapply dict_get_In. exact Ho.
Qed.

Lemma process_rows_store_ok rows : forall db n db' res,
  process_rows rows db n = (db', res) -> store_ok db -> store_ok db'.
Proof.
  induction rows as [|row rest IH]; simpl; intros db n db' res H Hok.
  - now injection H as <- _.
  - destruct (process_row row db) as [db1 [e|]] eqn:E.
    + injection H as <- _. eapply process_row_store_ok; eassumption.
    + eapply IH; [exact H | eapply process_row_store_ok; eassumption].
Qed.

Lemma upload_file_store_ok file w st :
  store_ok (orders_db st) -> store_ok (orders_db (snd (upload_file file w st))).
Proof.
  intros Hok. unfold upload_file, processing_failed.
  destruct file as [file|]; [|exact Hok].
  destruct (negb _); [exact Hok|].
  destruct (frame file) as [e | rows]; [exact Hok|].
  destruct (process_rows rows (orders_db st) 0) as [db [e | n]] eqn:E; simpl;
    eapply process_rows_store_ok; eassumption.
Qed.

Lemma scan_order_store_ok orderId sku scan_time w st :
  store_ok (orders_db st) ->
  store_ok (orders_db (snd (scan_order orderId sku scan_time w st))).
Proof.
  intros Hok.
  destruct (scan_order_cases orderId sku scan_time w st)
    as [[_ ->] | [(a & b & _ & _ & _ & _ & _ & ->)
                 | (a & b & o & d & _ & _ & _ & _ & Ho & Hd & ->)]];
    try exact Hok.
  simpl. pose proof (Hok _ _ (dict_get_In _ _ _ Ho)) as Hoo.
  apply store_ok_set; [exact Hok|].
  apply order_ok_set_item; [exact Hoo|].
  apply scanned_item_ok. destruct Hoo as [_ Hitems].
  eapply Hitems. eapply dict_get_In. exact Hd.
Qed.

Lemma reachable_store_ok st : reachable st -> store_ok (orders_db st).
Proof.
  induction 1 as [| file w st _ IH | orderId sku scan_time w st _ IH].
  - intros ? ? [].
  - now apply upload_file_store_ok.
  - now apply scan_order_store_ok.
Qed.

(** [upload_file] line 164 and [scan_order]: the order-level ['Status']
    is written once, as "Pending", when the order is created, and no
    operation writes it again; in every store that uploads and scans can
    produce, every order has status "Pending", however many of its items
    were scanned. *)
Theorem order_status_stays_pending :
  forall st,
    reachable st ->
    forall order_id o,
      dict_get order_id (orders_db st) = Some o -> Order.Status o = "Pending".
Proof.
  intros st Hr order_id o Ho.
  exact (proj1 (reachable_store_ok st Hr _ _ (dict_get_In _ _ _ Ho))).
Qed.

(** Scenario A, then the only item with quantity 1 scanned: the order is
    still "Pending". *)
Lemma order_status_stays_pending_witness :
  reachable after_A1_A2_scanned /\
  option_map Order.Status (dict_get "1001" (orders_db after_A1_A2_scanned)) = Some "Pending".
Proof.
  assert (Hr : reachable after_A1_A2_scanned).
  { apply reach_scan, reach_upload, reach_start. }
  split; [exact Hr|].
  destruct (dict_get "1001" (orders_db after_A1_A2_scanned)) as [o|] eqn:E;
    [|discriminate E].
  simpl. f_equal.
  exact (order_status_stays_pending after_A1_A2_scanned Hr "1001" o E).
Defined.

(** [upload_file] lines 168-174 and [scan_order] lines 213-216: in every
    store that uploads and scans can produce, every line item has a
    scanned count that is not negative, and it carries a scan timestamp
    exactly when that count is not 0 (ingesting a row again removes both). *)
Theorem scanned_count_and_timestamp_agree :
  forall st,
    reachable st ->
    forall order_id sku d,
      item_at order_id sku (orders_db st) = Some d ->
      0 <= Item.Scanned d /\
      (Item.ScanTimestamp d = None <-> Item.Scanned d = 0).
Proof.
  intros st Hr order_id sku d Hd. unfold item_at in Hd.
  destruct (dict_get order_id (orders_db st)) as [o|] eqn:Ho; [|discriminate].
  destruct (reachable_store_ok st Hr _ _ (dict_get_In _ _ _ Ho)) as [_ Hitems].
  exact (Hitems _ _ (dict_get_In _ _ _ Hd)).
Qed.

Lemma scanned_count_and_timestamp_agree_witness :
  reachable after_A1_again /\
  item_at "1001" "A1" (orders_db after_A1_scanned)
    = Some (Item.mk (Py.CStr "Shirt") (Py.CStr "Red") 3 1 "15,000" (Some t0)) /\
  item_at "1001" "A1" (orders_db after_A1_again)
    = Some (Item.mk (Py.CStr "Shirt") (Py.CStr "Red") 3 0 "15,000" None) /\
  (0 <= 0 /\ ((None : option string) = None <-> 0 = 0)).
Proof.
  assert (Hr : reachable after_A1_again).
  { apply reach_upload, reach_scan, reach_upload, reach_start. }
  split; [exact Hr|]. split; [reflexivity|]. split; [reflexivity|].
  exact (scanned_count_and_timestamp_agree after_A1_again Hr "1001" "A1"
           (Item.mk (Py.CStr "Shirt") (Py.CStr "Red") 3 0 "15,000" None) eq_refl).
Defined.

(** ** Nothing is deleted *)

Lemma keys_kept_refl {V : Type} (d : dict V) : keys_kept d d.
Proof. exists []. now rewrite app_nil_r. Qed.

Lemma keys_kept_trans {V : Type} (d1 d2 d3 : dict V) :
  keys_kept d1 d2 -> keys_kept d2 d3 -> keys_kept d1 d3.
Proof.
  intros [m1 H1] [m2 H2]. exists (m1 ++ m2)%list. now rewrite H2, H1, app_assoc.
Qed.

Lemma keys_kept_set {V : Type} k (v : V) d : keys_kept d (dict_set k v d).
Proof.
  destruct (dict_get k d) eqn:E.
  - exists []. rewrite app_nil_r. apply dict_keys_set_present. congruence.
  - exists [k]. rewrite dict_set_absent by exact E. unfold dict_keys. now rewrite map_app.
Qed.

Lemma extends_refl db : extends db db.
Proof.
  split; [apply keys_kept_refl|]. intros k o Ho. exists o.
  split; [exact Ho | apply keys_kept_refl].
Qed.

Lemma extends_trans db1 db2 db3 : extends db1 db2 -> extends db2 db3 -> extends db1 db3.
Proof.
  intros [K1 H1] [K2 H2]. split; [eapply keys_kept_trans; eassumption|].
  intros k o Ho. destruct (H1 _ _ Ho) as (o2 & Ho2 & Ks2).
  destruct (H2 _ _ Ho2) as (o3 & Ho3 & Ks3).
  exists o3. split; [exact Ho3 | eapply keys_kept_trans; eassumption].
Qed.

(** Assigning to an order a version of itself with at least its skus. *)
Lemma extends_set k o' db :
  (forall o0, dict_get k db = Some o0 -> keys_kept (Order.SKUs o0) (Order.SKUs o')) ->
  extends db (dict_set k o' db).
Proof.
  intros Hk. split; [apply keys_kept_set|].
  intros k0 o0 Ho0. destruct (string_dec k0 k) as [-> | Hne].
  - exists o'. split; [apply dict_get_set_same | now apply Hk].
  - exists o0. split; [now rewrite dict_get_set_other | apply keys_kept_refl].
Qed.

Lemma ensure_order_extends row db db1 :
  ensure_order row db = inr db1 -> extends db db1.
Proof.
  intros H. destruct (ensure_order_inv _ _ _ H) as [[_ ->] | [Hnone (p & _ & ->)]];
    [apply extends_refl|].
  apply extends_set. intros o0 Ho0. congruence.
Qed.

Lemma process_row_extends row db db' r :
  process_row row db = (db', r) -> extends db db'.
Proof.
  intros H. destruct r as [e|].
  - destruct (process_row_raise_inv _ _ _ _ H) as [[_ ->] | [E _]];
      [apply extends_refl | eapply ensure_order_extends; exact E].
  - destruct (process_row_ok_inv _ _ _ H) as (db1 & o & d & E & Ho & _ & ->).
    eapply extends_trans; [eapply ensure_order_extends; exact E|].
    apply extends_set. intros o0 Ho0.
    rewrite Ho in Ho0. injection Ho0 as <-. simpl. apply keys_kept_set.
Qed.

Lemma process_rows_extends rows : forall db n db' res,
  process_rows rows db n = (db', res) -> extends db db'.
Proof.
  induction rows as [|row rest IH]; simpl; intros db n db' res H.
  - injection H as <- _. apply extends_refl.
  - destruct (process_row row db) as [db1 [e|]] eqn:E.
    + injection H as <- _. eapply process_row_extends; exact E.
    + eapply extends_trans; [eapply process_row_extends; exact E | eapply IH; exact H].
Qed.

Lemma upload_file_extends file w st :
  extends (orders_db st) (orders_db (snd (upload_file file w st))).
Proof.
  unfold upload_file, processing_failed.
  destruct file as [file|]; [|apply extends_refl].
  destruct (negb _); [apply extends_refl|].
  destruct (frame file) as [e | rows]; [apply extends_refl|].
  destruct (process_rows rows (orders_db st) 0) as [db [e | n]] eqn:E; simpl;
    eapply process_rows_extends; exact E.
Qed.

Lemma scan_order_extends orderId sku scan_time w st :
  extends (orders_db st) (orders_db (snd (scan_order orderId sku scan_time w st))).
Proof.
  destruct (scan_order_cases orderId sku scan_time w st)
    as [[_ ->] | [(a & b & _ & _ & _ & _ & _ & ->)
                 | (a & b & o & d & _ & _ & _ & _ & Ho & Hd & ->)]];
    try apply extends_refl.
  simpl. apply extends_set. intros o0 Ho0.
  rewrite Ho in Ho0. injection Ho0 as <-. simpl. apply keys_kept_set.
Qed.

Lemma handle_extends r st : extends (orders_db st) (orders_db (snd (handle r st))).
Proof.
  destruct r as [file w | c]; simpl.
  - pose proof (upload_file_extends file w st) as H.
    now destruct (upload_file file w st).
  - pose proof (scan_order_extends (call_orderId c) (call_sku c) (call_time c)
                  (call_stamp c) st) as H.
    unfold scan. now destruct (scan_order _ _ _ _ st).
Qed.

(** [upload_file] and [scan_order] only assign into the two levels of
    dictionaries and never remove a key: across any sequence of uploads and
    scans, failed ones included, the order identifiers present at the
    start are still there, in the same positions, with new ones only after
    them, and the same holds for the skus inside every order. *)
Theorem run_never_deletes :
  forall rs st,
    (exists more,
       dict_keys (orders_db (snd (run rs st))) = (dict_keys (orders_db st) ++ more)%list)
    /\ (forall order_id o,
          dict_get order_id (orders_db st) = Some o ->
          exists o' more,
            dict_get order_id (orders_db (snd (run rs st))) = Some o' /\
            dict_keys (Order.SKUs o') = (dict_keys (Order.SKUs o) ++ more)%list).
Proof.
  assert (H : forall rs st, extends (orders_db st) (orders_db (snd (run rs st)))).
  { induction rs as [|r rs IH]; intros st; simpl; [apply extends_refl|].
    pose proof (handle_extends r st) as H1.
    destruct (handle r st) as [ok st1]. simpl in H1.
    pose proof (IH st1) as H2.
    destruct (run rs st1) as [oks st2]. simpl in *.
    eapply extends_trans; eassumption. }
  intros rs st. destruct (H rs st) as [K Hin]. split; [exact K|].
  intros order_id o Ho. destruct (Hin _ _ Ho) as (o' & Ho' & [more Hm]).
  now exists o', more.
Qed.

Lemma run_never_deletes_witness :
  exists o,
    dict_get "1001" (orders_db after_A1) = Some o /\
    exists o' more,
      dict_get "1001"
        (orders_db (snd (run [Upload (xlsx [row_bad_quantity; row_A2]) w0;
                              Scan (mkScan (Some "1001") (Some "A1") t0 w0);
                              Upload (xlsx [row_A2; row_A1]) w0] after_A1))) = Some o' /\
      dict_keys (Order.SKUs o') = (dict_keys (Order.SKUs o) ++ more)%list.
Proof.
  eexists. split; [reflexivity|].
  exact (proj2 (run_never_deletes
                  [Upload (xlsx [row_bad_quantity; row_A2]) w0;
                   Scan (mkScan (Some "1001") (Some "A1") t0 w0);
                   Upload (xlsx [row_A2; row_A1]) w0] after_A1)
               "1001" _ eq_refl).
Defined.

(** ** The listing after a scan *)

Lemma rescan_other_order order_id sku k o skus :
  k <> order_id ->
  rescan_in order_id sku (map (fun '(s, details) => line_view k o s details) skus)
  = map (fun '(s, details) => line_view k o s details) skus.
Proof.
  intros Hne. unfold rescan_in. rewrite map_map. apply map_ext.
  intros [s d]. simpl. apply String.eqb_neq in Hne. now rewrite Hne.
Qed.

Lemma rescan_absent_sku order_id sku o skus :
  dict_get sku skus = None ->
  rescan_in order_id sku (map (fun '(s, details) => line_view order_id o s details) skus)
  = map (fun '(s, details) => line_view order_id o s details) skus.
Proof.
  unfold rescan_in. rewrite map_map.
  induction skus as [|[s d] skus IH]; simpl; [reflexivity|].
  rewrite (String.eqb_sym s sku). destruct (String.eqb sku s) eqn:E; [discriminate|].
  intros H. rewrite andb_false_r. f_equal. now apply IH.
Qed.

Lemma rescan_views_of_order order_id sku o t d skus :
  NoDup (dict_keys skus) ->
  dict_get sku skus = Some d ->
  map (fun '(s, details) =>
         line_view order_id
           (Order.set_SKUs (dict_set sku (scanned_item t d) (Order.SKUs o)) o) s details)
      (dict_set sku (scanned_item t d) skus)
  = rescan_in order_id sku (map (fun '(s, details) => line_view order_id o s details) skus).
Proof.
  induction skus as [|[s d0] skus IH]; simpl; intros Hnd Hd; [discriminate|].
  inversion Hnd as [|? ? Hnotin Hnd']; subst.
  rewrite String.eqb_refl. simpl. rewrite (String.eqb_sym s sku).
  destruct (String.eqb sku s) eqn:E; simpl.
  - apply String.eqb_eq in E. subst s. injection Hd as ->.
    f_equal. apply dict_get_None in Hnotin.
    change (map _ (map _ skus)) with
      (rescan_in order_id sku (map (fun '(s, details) => line_view order_id o s details) skus)).
    now rewrite rescan_absent_sku.
  - f_equal. now apply IH.
Qed.

Lemma rescan_orders_list order_id sku o t d db :
  wf_db db ->
  dict_get order_id db = Some o ->
  dict_get sku (Order.SKUs o) = Some d ->
  orders_list
    (dict_set order_id
       (Order.set_SKUs (dict_set sku (scanned_item t d) (Order.SKUs o)) o) db)
  = rescan_in order_id sku (orders_list db).
Proof.
  intros [Hnd Hin]. induction db as [|[k o0] db IH]; simpl dict_get; [discriminate|].
  inversion Hnd as [|? ? Hnotin Hnd']; subst.
  intros Ho Hd. simpl dict_set. destruct (String.eqb order_id k) eqn:E.
  - apply String.eqb_eq in E. subst k. injection Ho as ->.
    rewrite !orders_list_cons. unfold rescan_in at 1. rewrite map_app.
    f_equal.
    + simpl Order.SKUs. apply rescan_views_of_order; [|exact Hd].
      apply (Hin order_id o). now left.
    + symmetry. rewrite <- (map_id (orders_list db)) at 2.
      apply map_ext_in. intros v Hv. apply In_orders_list in Hv.
      destruct Hv as (k & o1 & s & d1 & Hk & _ & ->). simpl.
      destruct (String.eqb k order_id) eqn:E; [|reflexivity].
      apply String.eqb_eq in E. subst k. exfalso. apply Hnotin.
      change order_id with (fst (order_id, o1)). now apply in_map.
  - apply String.eqb_neq in E.
    rewrite !orders_list_cons. unfold rescan_in at 1. rewrite map_app.
    f_equal.
    + symmetry. apply rescan_other_order. congruence.
    + apply IH; [exact Hnd' | intros a b H; apply (Hin a b); now right | exact Ho | exact Hd].
Qed.

(** [scan_order] then [get_orders]: after a scan that is answered with
    success, the listing is the listing from before with the record of the
    scanned pair showing one more scanned unit and the status that follows
    from it; the number and order of the records, and every other record,
    are the same. After a scan that fails the listing is the same. *)
Theorem listing_after_scan :
  forall st order_id sku scan_time w,
    wf_db (orders_db st) ->
    orders_list (orders_db (snd (scan_order (Some order_id) (Some sku) scan_time w st)))
    = if success (fst (scan_order (Some order_id) (Some sku) scan_time w st))
      then rescan_in order_id sku (orders_list (orders_db st))
      else orders_list (orders_db st).
Proof.
  intros st order_id sku scan_time w Hwf.
  destruct (scan_order_cases (Some order_id) (Some sku) scan_time w st)
    as [[_ ->] | [(a & b & _ & _ & _ & _ & _ & ->)
                 | (a & b & o & d & [= <-] & [= <-] & _ & _ & Ho & Hd & ->)]];
    try reflexivity.
  simpl. now apply rescan_orders_list.
Qed.

Lemma listing_after_scan_witness :
  wf_db (orders_db after_A1_A2) /\
  orders_list (orders_db after_A1_A2_scanned)
  = [View.mk "1001" "A1" (Py.CStr "Shirt") (Py.CStr "Red") 3 0 "Pending" "15,000"
             (Py.CStr "Tehran") (Py.CStr "Tehran") (Some "20,000");
     View.mk "1001" "A2" (Py.CStr "Hat") (Py.CStr "Blue") 1 1 "Fulfilled" "5,000"
             (Py.CStr "Tehran") (Py.CStr "Tehran") (Some "20,000")].
Proof.
  assert (Hwf : wf_db (orders_db after_A1_A2)).
  { apply upload_file_wf, wf_db_empty. }
  split; [exact Hwf|].
  unfold after_A1_A2_scanned.
  rewrite (listing_after_scan after_A1_A2 "1001" "A2" t0 w0 Hwf).
  reflexivity.
Defined.

(** ** From pending to fulfilled *)

(** [scan_order] then [get_orders]: for a line item that exists under
    non-empty keys, [n] scans in a row leave its quantity as it was and its
    count [n] higher, so its record is listed "Fulfilled" exactly when [n]
    is at least the quantity minus the count it started with, and "Pending"
    for every smaller [n]. *)
Theorem scans_until_fulfilled :
  forall order_id sku o d st clock,
    order_id <> "" -> sku <> "" ->
    dict_get order_id (orders_db st) = Some o ->
    dict_get sku (Order.SKUs o) = Some d ->
    exists o' d',
      dict_get order_id (orders_db (scans (scan_repeat order_id sku clock) st)) = Some o' /\
      dict_get sku (Order.SKUs o') = Some d' /\
      Item.Quantity d' = Item.Quantity d /\
      Item.Scanned d' = Item.Scanned d + Z.of_nat (List.length clock) /\
      View.status (line_view order_id o' sku d')
      = (if Item.Quantity d - Item.Scanned d <=? Z.of_nat (List.length clock)
         then "Fulfilled" else "Pending").
Proof.
  intros order_id sku o d st clock H1 H2 Ho Hd.
  destruct (scan_repeat_item order_id sku H1 H2 clock st o d Ho Hd)
    as (o' & d' & Ho' & Hd' & _ & _ & _ & _ & Q & S).
  exists o', d'. repeat split; try assumption.
  simpl. rewrite Q, S.
  destruct (Item.Quantity d <=? Item.Scanned d + Z.of_nat (List.length clock)) eqn:E1;
    destruct (Item.Quantity d - Item.Scanned d <=? Z.of_nat (List.length clock)) eqn:E2;
    try reflexivity; lia.
Qed.

(** Row A1 has quantity 3: two scans leave it pending, the third fulfils it. *)
Lemma scans_until_fulfilled_witness :
  "1001" <> "" /\ "A1" <> "" /\
  (exists o' d',
     dict_get "1001" (orders_db (scans (scan_repeat "1001" "A1" [(t0, w0); (t0, w0)]) after_A1))
       = Some o' /\
     dict_get "A1" (Order.SKUs o') = Some d' /\
     View.status (line_view "1001" o' "A1" d') = "Pending") /\
  (exists o' d',
     dict_get "1001"
       (orders_db (scans (scan_repeat "1001" "A1" [(t0, w0); (t0, w0); (t0, w0)]) after_A1))
       = Some o' /\
     dict_get "A1" (Order.SKUs o') = Some d' /\
     View.status (line_view "1001" o' "A1" d') = "Fulfilled").
Proof.
  assert (H1 : "1001" <> "") by discriminate.
  assert (H2 : "A1" <> "") by discriminate.
  split; [exact H1|]. split; [exact H2|]. split.
  - destruct (scans_until_fulfilled "1001" "A1"
                (Order.mk [("A1", Item.mk (Py.CStr "Shirt") (Py.CStr "Red") 3 0 "15,000" None)]
                          (Py.CStr "Tehran") (Py.CStr "Tehran") (Some "20,000") "Pending")
                (Item.mk (Py.CStr "Shirt") (Py.CStr "Red") 3 0 "15,000" None)
                after_A1 [(t0, w0); (t0, w0)] H1 H2 eq_refl eq_refl)
      as (o' & d' & Ho' & Hd' & _ & _ & Hs).
    exists o', d'. split; [exact Ho'|]. split; [exact Hd' | exact Hs].
  - destruct (scans_until_fulfilled "1001" "A1"
                (Order.mk [("A1", Item.mk (Py.CStr "Shirt") (Py.CStr "Red") 3 0 "15,000" None)]
                          (Py.CStr "Tehran") (Py.CStr "Tehran") (Some "20,000") "Pending")
                (Item.mk (Py.CStr "Shirt") (Py.CStr "Red") 3 0 "15,000" None)
                after_A1 [(t0, w0); (t0, w0); (t0, w0)] H1 H2 eq_refl eq_refl)
      as (o' & d' & Ho' & Hd' & _ & _ & Hs).
    exists o', d'. split; [exact Ho'|]. split; [exact Hd' | exact Hs].
Defined.

(** [upload_file] line 171 with [get_orders] line 78: a line item that
    was just ingested has count 0, so it is listed "Fulfilled" exactly when
    its stored quantity is 0 or less. A row whose quantity cell is missing
    is stored with quantity 0 and is therefore listed "Fulfilled" before
    anything was scanned. *)
Theorem unscanned_item_fulfilled_iff_no_quantity :
  forall row db db',
    process_row row db = (db', None) ->
    exists o d,
      dict_get (Py.str (Row.OrderID row)) db' = Some o /\
      dict_get (Py.str (Row.SKU row)) (Order.SKUs o) = Some d /\
      quantity_of row = inr (Item.Quantity d) /\
      View.status (line_view (Py.str (Row.OrderID row)) o (Py.str (Row.SKU row)) d)
      = (if Item.Quantity d <=? 0 then "Fulfilled" else "Pending") /\
      (Py.notna (Row.Quantity row) = false ->
       View.status (line_view (Py.str (Row.OrderID row)) o (Py.str (Row.SKU row)) d)
       = "Fulfilled").
Proof.
  intros row db db' H.
  destruct (process_row_ok_inv _ _ _ H) as (db1 & o & d & E & Ho & Hd & ->).
  destruct (fresh_item_inv _ _ Hd) as (_ & _ & Hq & _ & H0 & _).
  eexists. exists d. split; [apply dict_get_set_same|].
  split; [simpl; apply dict_get_set_same|]. split; [exact Hq|].
  simpl. rewrite H0. split; [reflexivity|].
  intros Hna. unfold quantity_of in Hq. rewrite Hna in Hq. now injection Hq as <-.
Qed.

Lemma unscanned_item_fulfilled_iff_no_quantity_witness :
  Py.notna (Row.Quantity row_no_quantity) = false /\
  exists o d,
    dict_get "1004" (fst (process_row row_no_quantity [])) = Some o /\
    dict_get "F1" (Order.SKUs o) = Some d /\
    Item.Quantity d = 0 /\
    View.status (line_view "1004" o "F1" d) = "Fulfilled".
Proof.
  split; [reflexivity|].
  destruct (unscanned_item_fulfilled_iff_no_quantity row_no_quantity []
              (fst (process_row row_no_quantity [])) eq_refl)
    as (o & d & Ho & Hd & Hq & _ & Hs).
  exists o, d. split; [exact Ho|]. split; [exact Hd|].
  split; [now injection Hq | exact (Hs eq_refl)].
Defined.

(** ** What a batch leaves behind *)

Lemma process_rows_app_ok pre : forall post db n db' m,
  process_rows (pre ++ post) db n = (db', inr m) ->
  exists db1 m1,
    process_rows pre db n = (db1, inr m1) /\ process_rows post db1 m1 = (db', inr m).
Proof.
  induction pre as [|row rest IH]; simpl; intros post db n db' m H.
  - now exists db, n.
  - destruct (process_row row db) as [db2 [e|]]; [discriminate|].
    now apply IH.
Qed.

(** Rows for other pairs leave a line item as it was. *)
Lemma process_rows_item_at_other rows order_id sku : forall db n db' res,
  process_rows rows db n = (db', res) ->
  (forall r, In r rows -> same_keys (order_id, sku) r = false) ->
  item_at order_id sku db' = item_at order_id sku db.
Proof.
  induction rows as [|row rest IH]; simpl; intros db n db' res H Hother.
  - now injection H as <- _.
  - pose proof (Hother row (or_introl eq_refl)) as Hrow.
    unfold same_keys in Hrow. simpl in Hrow.
    destruct (process_row row db) as [db1 [e|]] eqn:E.
    + injection H as <- _. now rewrite (process_row_item_at _ _ _ _ order_id sku E).
    + rewrite (IH _ _ _ _ H (fun r Hr => Hother r (or_intror Hr))).
      rewrite (process_row_item_at _ _ _ _ order_id sku E). now rewrite Hrow.
Qed.

(** [upload_file] lines 167-174: line items are last-write-wins. After a
    batch in which no row raised, the line item of a pair is the one built
    from the last row of the batch that names the pair: its title, color,
    quantity and price, count 0 and no scan timestamp. *)
Theorem last_row_for_pair_wins :
  forall pre row post db n db' m,
    process_rows (pre ++ row :: post) db n = (db', inr m) ->
    (forall r, In r post -> same_keys (row_keys row) r = false) ->
    exists d,
      fresh_item row = inr d /\
      item_at (Py.str (Row.OrderID row)) (Py.str (Row.SKU row)) db' = Some d /\
      Item.Title d = Row.Title row /\ Item.Color d = Row.Color row /\
      quantity_of row = inr (Item.Quantity d) /\ price_of row = inr (Item.Price d) /\
      Item.Scanned d = 0 /\ Item.ScanTimestamp d = None.
Proof.
  intros pre row post db n db' m H Hpost.
  destruct (process_rows_app_ok _ _ _ _ _ _ H) as (db1 & m1 & _ & Hrest).
  simpl in Hrest. destruct (process_row row db1) as [db2 [e|]] eqn:E; [discriminate|].
  destruct (process_row_ok_inv _ _ _ E) as (_ & _ & d & _ & _ & Hd & _).
  exists d. split; [exact Hd|]. split.
  - rewrite (process_rows_item_at_other _ _ _ _ _ _ _ Hrest Hpost).
    rewrite (process_row_item_at _ _ _ _ _ _ E), !String.eqb_refl. simpl. now rewrite Hd.
  - destruct (fresh_item_inv _ _ Hd) as (H1 & H2 & H3 & H4 & H5 & H6). now repeat split.
Qed.

(** Row A1 twice with another row between: the item of A1 is the one of
    its second occurrence. *)
Lemma last_row_for_pair_wins_witness :
  (forall r, In r [row_A2] -> same_keys (row_keys row_A1_more) r = false) /\
  exists d,
    item_at "1001" "A1" (fst (process_rows [row_A1; row_A1_more; row_A2] [] 0)) = Some d /\
    Item.Quantity d = 5 /\ Item.Price d = "16,000".
Proof.
  assert (Hpost : forall r, In r [row_A2] -> same_keys (row_keys row_A1_more) r = false).
  { intros r [<- | []]. reflexivity. }
  split; [exact Hpost|].
  destruct (last_row_for_pair_wins [row_A1] row_A1_more [row_A2] [] 0
              (fst (process_rows [row_A1; row_A1_more; row_A2] [] 0)) 3 eq_refl Hpost)
    as (d & _ & Hd & _ & _ & Hq & Hp & _).
  exists d. split; [exact Hd|]. split; [now injection Hq | now injection Hp].
Defined.

Lemma process_row_mem row db db' k :
  process_row row db = (db', None) ->
  dict_mem k db' = dict_mem k db || String.eqb k (Py.str (Row.OrderID row)).
Proof.
  intros H. destruct (process_row_ok_inv _ _ _ H) as (db1 & o & d & E & Ho & _ & ->).
  unfold dict_mem. destruct (String.eqb k (Py.str (Row.OrderID row))) eqn:Ek.
  - apply String.eqb_eq in Ek. subst k. rewrite dict_get_set_same. now rewrite orb_true_r.
  - apply String.eqb_neq in Ek. rewrite dict_get_set_other by congruence.
    rewrite orb_false_r.
    destruct (ensure_order_inv _ _ _ E) as [[_ ->] | [_ (p & _ & ->)]]; [reflexivity|].
    now rewrite dict_get_set_other by congruence.
Qed.

Lemma process_rows_mem rows k : forall db n db' m,
  process_rows rows db n = (db', inr m) ->
  dict_mem k db'
  = dict_mem k db || existsb (fun r => String.eqb k (Py.str (Row.OrderID r))) rows.
Proof.
  induction rows as [|row rest IH]; simpl; intros db n db' m H.
  - injection H as <- _. now rewrite orb_false_r.
  - destruct (process_row row db) as [db1 [e|]] eqn:E; [discriminate|].
    rewrite (IH _ _ _ _ H), (process_row_mem _ _ _ k E). now rewrite orb_assoc.
Qed.

(** [upload_file] then [get_order]: after a batch in which no row
    raised, [get_order] answers 200 exactly for the identifiers that were
    in the store before or are the text of some row's order identifier,
    and 404 for every other identifier. *)
Theorem get_order_after_batch :
  forall rows db n db' m logs order_id,
    process_rows rows db n = (db', inr m) ->
    http_status (get_order order_id (mkStore db' logs))
    = (if dict_mem order_id db
          || existsb (fun r => String.eqb order_id (Py.str (Row.OrderID r))) rows
       then 200 else 404)
    /\ (http_status (get_order order_id (mkStore db' logs)) = 200 ->
        exists o, data (get_order order_id (mkStore db' logs)) = Some o /\
                  dict_get order_id db' = Some o)
    /\ (http_status (get_order order_id (mkStore db' logs)) = 404 ->
        data (get_order order_id (mkStore db' logs)) = None).
Proof.
  intros rows db n db' m logs order_id H.
  rewrite <- (process_rows_mem _ order_id _ _ _ _ H).
  unfold get_order, dict_mem. simpl.
  destruct (dict_get order_id db') as [o|]; simpl.
  - split; [reflexivity|]. split; [intros _; now exists o | discriminate].
  - split; [reflexivity|]. split; [discriminate | reflexivity].
Qed.

Lemma get_order_after_batch_witness :
  process_rows [row_A1; row_nan_id] [] 0
    = (fst (process_rows [row_A1; row_nan_id] [] 0), inr 2) /\
  http_status (get_order "nan" (mkStore (fst (process_rows [row_A1; row_nan_id] [] 0)) []))
    = 200 /\
  http_status (get_order "1002" (mkStore (fst (process_rows [row_A1; row_nan_id] [] 0)) []))
    = 404.
Proof.
  split; [reflexivity|]. split.
  - exact (proj1 (get_order_after_batch [row_A1; row_nan_id] [] 0
                    (fst (process_rows [row_A1; row_nan_id] [] 0)) 2 [] "nan" eq_refl)).
  - exact (proj1 (get_order_after_batch [row_A1; row_nan_id] [] 0
                    (fst (process_rows [row_A1; row_nan_id] [] 0)) 2 [] "1002" eq_refl)).
Defined.

Lemma orders_list_app (db1 db2 : dict Order.t) :
  orders_list (db1 ++ db2)%list = (orders_list db1 ++ orders_list db2)%list.
Proof. unfold orders_list. apply flat_map_app. Qed.

(** [upload_file] lines 158-174: the order is assigned before the line
    item is built. A row that names a new order identifier, whose payment
    converts, and that then raises on its quantity or price leaves that
    order behind with no line item: it is appended to the store, counted by
    [system_status] and returned by [get_order], while the listing of
    [get_orders] shows nothing for it. *)
Theorem failed_row_leaves_empty_order :
  forall row db db' e p logs clock,
    process_row row db = (db', Some e) ->
    dict_get (Py.str (Row.OrderID row)) db = None ->
    payment_of row = inr p ->
    fresh_item row = inl e
    /\ db' = (db ++ [(Py.str (Row.OrderID row),
                     Order.mk [] (Row.State row) (Row.City row) p "Pending")])%list
    /\ total_orders (report_stats (system_status clock (mkStore db' logs)))
       = total_orders (report_stats (system_status clock (mkStore db logs))) + 1
    /\ data (get_order (Py.str (Row.OrderID row)) (mkStore db' logs))
       = Some (Order.mk [] (Row.State row) (Row.City row) p "Pending")
    /\ orders_list db' = orders_list db.
Proof.
  intros row db db' e p logs clock H Hnone Hp.
  destruct (process_row_raise_inv _ _ _ _ H) as [[E _] | [E Hd]].
  - unfold ensure_order, dict_mem in E. rewrite Hnone, Hp in E. discriminate.
  - destruct (ensure_order_inv _ _ _ E) as [[Hin _] | [_ (p' & Hp' & ->)]]; [congruence|].
    rewrite Hp in Hp'. injection Hp' as <-.
    split; [exact Hd|]. split; [now apply dict_set_absent|].
    split; [|split].
    + simpl. rewrite dict_set_absent by exact Hnone. rewrite length_app. simpl. lia.
    + unfold get_order. simpl. now rewrite dict_get_set_same.
    + rewrite dict_set_absent by exact Hnone. rewrite orders_list_app. simpl.
      now rewrite app_nil_r.
Qed.

Lemma failed_row_leaves_empty_order_witness :
  dict_get "1002" (orders_db after_A1) = None /\
  payment_of row_bad_quantity = inr (Some "7,000") /\
  dict_keys (fst (process_row row_bad_quantity (orders_db after_A1))) = ["1001"; "1002"] /\
  orders_list (fst (process_row row_bad_quantity (orders_db after_A1)))
    = orders_list (orders_db after_A1).
Proof.
  split; [reflexivity|]. split; [reflexivity|].
  destruct (failed_row_leaves_empty_order row_bad_quantity (orders_db after_A1)
              (fst (process_row row_bad_quantity (orders_db after_A1)))
              (Py.ValueError_int "abc") (Some "7,000") [] t0 eq_refl eq_refl eq_refl)
    as (_ & Hdb & _ & _ & Hlist).
  split; [rewrite Hdb; reflexivity | exact Hlist].
Defined.

(** ** Uploading the same file again *)

Lemma dict_ext {V : Type} : forall (d d' : dict V),
  dict_keys d' = dict_keys d ->
  NoDup (dict_keys d) ->
  (forall k, dict_get k d' = dict_get k d) ->
  d' = d.
Proof.
  induction d as [|[k v] d IH]; intros [|[k' v'] d'] Hk Hnd Hget; try discriminate.
  - reflexivity.
  - simpl in Hk. injection Hk as -> Hk.
    inversion Hnd as [|? ? Hnotin Hnd']; subst.
    pose proof (Hget k) as Hv. simpl in Hv. rewrite String.eqb_refl in Hv.
    injection Hv as ->. f_equal. apply IH; [exact Hk | exact Hnd'|].
    intros k0. destruct (String.eqb k0 k) eqn:E.
    + apply String.eqb_eq in E. subst k0.
      assert (H1 : dict_get k d = None) by now apply dict_get_None.
      assert (H2 : dict_get k d' = None) by (apply dict_get_None; now rewrite Hk).
      now rewrite H1, H2.
    + pose proof (Hget k0) as H. simpl in H. now rewrite E in H.
Qed.

Lemma same_shape_refl db : same_shape db db.
Proof. now split. Qed.

Lemma same_shape_trans db1 db2 db3 :
  same_shape db1 db2 -> same_shape db2 db3 -> same_shape db1 db3.
Proof.
  intros [K1 S1] [K2 S2]. split; [congruence|]. intros k. now rewrite S2, S1.
Qed.

Lemma item_present_iff k s db :
  item_at k s db <> None <-> exists ks, skus_of k db = Some ks /\ In s ks.
Proof.
  unfold item_at, skus_of. destruct (dict_get k db) as [o|]; simpl.
  - split.
    + intros H. exists (dict_keys (Order.SKUs o)). split; [reflexivity|].
      destruct (in_dec string_dec s (dict_keys (Order.SKUs o))) as [Hin | Hnin];
        [exact Hin|]. apply dict_get_None in Hnin. contradiction.
    + intros (ks & [= <-] & Hin) Hnone. apply dict_get_None in Hnone. contradiction.
  - split; [congruence | now intros (ks & H & _)].
Qed.

Lemma same_shape_present db db' k s :
  same_shape db db' -> item_at k s db <> None -> item_at k s db' <> None.
Proof.
  intros [_ Hs] H. apply item_present_iff. apply item_present_iff in H.
  destruct H as (ks & Hks & Hin). exists ks. split; [now rewrite Hs | exact Hin].
Qed.

(** A row for a pair that exists is processed by two assignments to
    present keys. *)
Lemma process_row_present row db d :
  item_at (Py.str (Row.OrderID row)) (Py.str (Row.SKU row)) db <> None ->
  fresh_item row = inr d ->
  exists db', process_row row db = (db', None) /\ same_shape db db'.
Proof.
  intros Hpres Hd. unfold item_at in Hpres.
  destruct (dict_get (Py.str (Row.OrderID row)) db) as [o|] eqn:Ho; [|congruence].
  assert (E : ensure_order row db = inr db).
  { unfold ensure_order, dict_mem. now rewrite Ho. }
  destruct (process_row_ok row db db d E Hd) as (o' & Ho' & Hrow).
  rewrite Ho in Ho'. injection Ho' as <-.
  eexists. split; [exact Hrow|]. split.
  - apply dict_keys_set_present. congruence.
  - intros k. unfold skus_of.
    destruct (string_dec k (Py.str (Row.OrderID row))) as [-> | Hne].
    + rewrite dict_get_set_same, Ho. simpl. f_equal.
      now apply dict_keys_set_present.
    + now rewrite dict_get_set_other.
Qed.

Lemma process_rows_present rows : forall db n,
  (forall r, In r rows ->
     item_at (Py.str (Row.OrderID r)) (Py.str (Row.SKU r)) db <> None /\
     exists d, fresh_item r = inr d) ->
  exists db',
    process_rows rows db n = (db', inr (n + Z.of_nat (List.length rows))) /\
    same_shape db db'.
Proof.
  induction rows as [|row rest IH]; intros db n Hall.
  - exists db. split; [simpl; f_equal; f_equal; lia | apply same_shape_refl].
  - destruct (Hall row (or_introl eq_refl)) as [Hpres [d Hd]].
    destruct (process_row_present row db d Hpres Hd) as (db1 & Hrow & S1).
    destruct (IH db1 (n + 1)) as (db' & Hrest & S2).
    { intros r Hr. destruct (Hall r (or_intror Hr)) as [Hp Hf].
      split; [eapply same_shape_present; eassumption | exact Hf]. }
    exists db'. split; [|eapply same_shape_trans; eassumption].
    simpl. rewrite Hrow, Hrest. f_equal. f_equal. lia.
Qed.

Lemma extends_present db db' k s :
  extends db db' -> item_at k s db <> None -> item_at k s db' <> None.
Proof.
  intros [_ Hin] H. unfold item_at in *.
  destruct (dict_get k db) as [o|] eqn:Ho; [|congruence].
  destruct (Hin _ _ Ho) as (o' & -> & [more Hm]).
  intros Hnone. apply dict_get_None in Hnone. apply Hnone. rewrite Hm.
  apply in_or_app. left.
  destruct (in_dec string_dec s (dict_keys (Order.SKUs o))) as [Hi | Hni]; [exact Hi|].
  apply dict_get_None in Hni. contradiction.
Qed.

(** After a batch without exception every row's pair exists and every
    row's line item can be built. *)
Lemma process_rows_all_present rows : forall db n db' m,
  process_rows rows db n = (db', inr m) ->
  forall r, In r rows ->
    item_at (Py.str (Row.OrderID r)) (Py.str (Row.SKU r)) db' <> None /\
    exists d, fresh_item r = inr d.
Proof.
  induction rows as [|row rest IH]; simpl; intros db n db' m H r Hr; [contradiction|].
  destruct (process_row row db) as [db1 [e|]] eqn:E; [discriminate|].
  destruct Hr as [<- | Hr]; [|eapply IH; eassumption].
  destruct (process_row_ok_inv _ _ _ E) as (_ & _ & d & _ & _ & Hd & _).
  split; [|now exists d].
  eapply extends_present; [eapply process_rows_extends; exact H|].
  rewrite (process_row_item_at _ _ _ _ _ _ E), !String.eqb_refl. simpl.
  rewrite Hd. discriminate.
Qed.

(** The line item of any pair after a batch without exception. *)
Lemma process_rows_item_at rows k s : forall db n db' m,
  process_rows rows db n = (db', inr m) ->
  item_at k s db'
  = match last_item rows (k, s) with
    | Some d => Some d
    | None => item_at k s db
    end.
Proof.
  induction rows as [|row rest IH]; simpl; intros db n db' m H.
  - now injection H as <- _.
  - destruct (process_row row db) as [db1 [e|]] eqn:E; [discriminate|].
    rewrite (IH _ _ _ _ H).
    destruct (last_item rest (k, s)) as [d|]; [reflexivity|].
    rewrite (process_row_item_at _ _ _ _ k s E). unfold same_keys. simpl.
    destruct (String.eqb k (Py.str (Row.OrderID row))
              && String.eqb s (Py.str (Row.SKU row))); [|reflexivity].
    destruct (process_row_ok_inv _ _ _ E) as (_ & _ & d & _ & _ & Hd & _).
    now rewrite Hd.
Qed.

Lemma order_eq o o' :
  same_order_fields o o' -> Order.SKUs o' = Order.SKUs o -> o' = o.
Proof.
  destruct o, o'. unfold same_order_fields. simpl.
  intros (-> & -> & -> & ->) ->. reflexivity.
Qed.

Lemma process_rows_twice rows db n db1 m n' :
  wf_db db ->
  process_rows rows db n = (db1, inr m) ->
  process_rows rows db1 n' = (db1, inr (n' + Z.of_nat (List.length rows))).
Proof.
  intros Hwf H1.
  pose proof (process_rows_wf _ _ _ _ _ H1 Hwf) as Hwf1.
  destruct (process_rows_present rows db1 n' (process_rows_all_present _ _ _ _ _ H1))
    as (db2 & H2 & [Hkeys Hskus]).
  rewrite H2. f_equal. apply dict_ext; [exact Hkeys | exact (proj1 Hwf1)|].
  intros k. destruct (dict_get k db1) as [o1|] eqn:Ho1.
  - destruct (process_rows_order_fields _ _ _ _ _ _ _ H2 Ho1) as (o2 & Ho2 & F).
    rewrite Ho2. f_equal. apply order_eq; [exact F|].
    apply dict_ext.
    + pose proof (Hskus k) as Hk. unfold skus_of in Hk. rewrite Ho1, Ho2 in Hk.
      now injection Hk.
    + eapply wf_db_get; eassumption.
    + intros s.
      pose proof (process_rows_item_at rows k s _ _ _ _ H2) as I2.
      pose proof (process_rows_item_at rows k s _ _ _ _ H1) as I1.
      unfold item_at in I1, I2. rewrite Ho1 in *. rewrite Ho2 in I2.
      rewrite I2. destruct (last_item rows (k, s)); [now rewrite I1 | reflexivity].
  - apply dict_get_None. rewrite Hkeys. now apply dict_get_None.
Qed.

(** [upload_file]: uploading a file that was just uploaded with success
    once more, with no scan in between, changes no order and no line item,
    and is answered as the first time, with the same processed count; only
    the log grows, by one entry. *)
Theorem reupload_changes_nothing :
  forall file w w' st,
    wf_db (orders_db st) ->
    success (fst (upload_file file w st)) = true ->
    orders_db (snd (upload_file file w' (snd (upload_file file w st))))
      = orders_db (snd (upload_file file w st))
    /\ fst (upload_file file w' (snd (upload_file file w st)))
      = fst (upload_file file w st).
Proof.
  intros file w w' st Hwf Hok. unfold upload_file in *.
  destruct file as [f|]; [|discriminate].
  destruct (negb (endswith (filename f) ".xlsx")); [discriminate|].
  destruct (frame f) as [e | rows]; [discriminate|].
  destruct (process_rows rows (orders_db st) 0) as [db1 [e | m]] eqn:H1; [discriminate|].
  cbn [snd orders_db].
  rewrite (process_rows_twice rows _ 0 db1 m 0 Hwf H1).
  pose proof (process_rows_count _ _ _ _ _ H1) as ->.
  now split.
Qed.

Lemma reupload_changes_nothing_witness :
  wf_db (orders_db empty_store) /\
  success (fst (upload_file (xlsx [row_A1; row_A1_more; row_A2]) w0 empty_store)) = true /\
  orders_db (snd (upload_file (xlsx [row_A1; row_A1_more; row_A2]) w0
                    (snd (upload_file (xlsx [row_A1; row_A1_more; row_A2]) w0 empty_store))))
    = orders_db (snd (upload_file (xlsx [row_A1; row_A1_more; row_A2]) w0 empty_store)).
Proof.
  split; [apply wf_db_empty|]. split; [reflexivity|].
  exact (proj1 (reupload_changes_nothing (xlsx [row_A1; row_A1_more; row_A2]) w0 w0
                  empty_store wf_db_empty eq_refl)).
Defined.

(** ** How much an upload can add *)

Lemma dict_set_length_present {V : Type} k (v : V) d :
  dict_get k d <> None -> List.length (dict_set k v d) = List.length d.
Proof.
  intros H. apply (dict_keys_set_present k v) in H.
  apply (f_equal (@List.length _)) in H. unfold dict_keys in H.
  now rewrite !length_map in H.
Qed.

Lemma dict_set_length_bounds {V : Type} k (v : V) d :
  (List.length d <= List.length (dict_set k v d) <= S (List.length d))%nat.
Proof.
  induction d as [|[k' v'] d IH]; simpl; [lia|].
  destruct (String.eqb k k'); simpl; lia.
Qed.

Lemma orders_list_set k o o' db :
  dict_get k db = Some o ->
  (List.length (orders_list (dict_set k o' db)) + List.length (Order.SKUs o)
   = List.length (orders_list db) + List.length (Order.SKUs o'))%nat.
Proof.
  induction db as [|[k' v'] db IH]; simpl; [discriminate|].
  destruct (String.eqb k k') eqn:E.
  - intros [= ->]. rewrite !orders_list_cons, !length_app, !length_map. lia.
  - intros H. apply IH in H.
    rewrite !orders_list_cons, !length_app, !length_map. lia.
Qed.

Lemma ensure_order_growth row db db1 :
  ensure_order row db = inr db1 ->
  (db1 = db) \/
  (List.length db1 = S (List.length db) /\ orders_list db1 = orders_list db /\
   exists o, dict_get (Py.str (Row.OrderID row)) db1 = Some o /\ Order.SKUs o = []).
Proof.
  intros E. destruct (ensure_order_inv _ _ _ E) as [[_ ->] | [Hnone (p & _ & ->)]];
    [now left | right].
  rewrite (dict_set_absent _ _ _ Hnone), length_app, orders_list_app. simpl.
  split; [lia|]. split; [now rewrite app_nil_r|].
  eexists. split;
    [rewrite <- (dict_set_absent _ _ _ Hnone); apply dict_get_set_same | reflexivity].
Qed.

Lemma process_row_growth row db :
  (List.length db <= List.length (fst (process_row row db)) <= S (List.length db))%nat
  /\ (List.length (orders_list db)
      <= List.length (orders_list (fst (process_row row db)))
      <= S (List.length (orders_list db)))%nat.
Proof.
  destruct (process_row row db) as [db' [e|]] eqn:H; simpl.
  - destruct (process_row_raise_inv _ _ _ _ H) as [[_ ->] | [E _]]; [lia|].
    destruct (ensure_order_growth _ _ _ E) as [-> | (L & OL & _)]; [lia|].
    rewrite L, OL. lia.
  - destruct (process_row_ok_inv _ _ _ H) as (db1 & o & d & E & Ho & _ & ->).
    rewrite dict_set_length_present by congruence.
    pose proof (orders_list_set _ _
                  (Order.set_SKUs (dict_set (Py.str (Row.SKU row)) d (Order.SKUs o)) o)
                  _ Ho) as OL.
    pose proof (dict_set_length_bounds (Py.str (Row.SKU row)) d (Order.SKUs o)) as B.
    destruct o as [skus ? ? ? ?]. simpl in *.
    destruct (ensure_order_growth _ _ _ E) as [-> | (L & OL1 & o1 & Ho1 & S1)]; [lia|].
    rewrite Ho in Ho1. injection Ho1 as <-. simpl in S1. subst skus. simpl in *.
    rewrite L, <- OL1. lia.
Qed.

Lemma process_rows_growth rows : forall db n,
  (List.length db <= List.length (fst (process_rows rows db n))
   <= List.length db + List.length rows)%nat
  /\ (List.length (orders_list db)
      <= List.length (orders_list (fst (process_rows rows db n)))
      <= List.length (orders_list db) + List.length rows)%nat.
Proof.
  induction rows as [|row rest IH]; intros db n; simpl; [lia|].
  pose proof (process_row_growth row db) as H1.
  destruct (process_row row db) as [db1 [e|]]; simpl in *; [lia|].
  specialize (IH db1 (n + 1)). lia.
Qed.

(** [upload_file] seen through [system_status] and [get_orders]: an
    upload of a file with [k] rows, whether it succeeds or is aborted,
    raises [total_orders] by at most [k] and the number of listed records
    by at most [k], and lowers neither. *)
Theorem upload_adds_at_most_one_per_row :
  forall f rows w st clock,
    frame f = inr rows ->
    (total_orders (report_stats (system_status clock st))
     <= total_orders (report_stats (system_status clock (snd (upload_file (Some f) w st))))
     <= total_orders (report_stats (system_status clock st)) + Z.of_nat (List.length rows))
    /\ (List.length (orders_list (orders_db st))
        <= List.length (orders_list (orders_db (snd (upload_file (Some f) w st))))
        <= List.length (orders_list (orders_db st)) + List.length rows)%nat.
Proof.
  intros f rows w st clock Hf. unfold upload_file, system_status. rewrite Hf.
  destruct (negb (endswith (filename f) ".xlsx")); simpl; [lia|].
  pose proof (process_rows_growth rows (orders_db st) 0) as H.
  destruct (process_rows rows (orders_db st) 0) as [db [e | n]]; simpl in *; lia.
Qed.

(** Three rows for two pairs of one new order: one order and two records
    more. *)
Lemma upload_adds_at_most_one_per_row_witness :
  total_orders (report_stats (system_status t0
     (snd (upload_file (xlsx [row_A1; row_A1_more; row_A2]) w0 empty_store)))) = 1 /\
  List.length (orders_list (orders_db
     (snd (upload_file (xlsx [row_A1; row_A1_more; row_A2]) w0 empty_store)))) = 2%nat /\
  (List.length (orders_list (orders_db empty_store))
   <= List.length (orders_list (orders_db
        (snd (upload_file (xlsx [row_A1; row_A1_more; row_A2]) w0 empty_store))))
   <= List.length (orders_list (orders_db empty_store)) + 3)%nat.
Proof.
  split; [reflexivity|]. split; [reflexivity|].
  exact (proj2 (upload_adds_at_most_one_per_row
                  (mkUpload "orders.xlsx" (inr [row_A1; row_A1_more; row_A2]))
                  [row_A1; row_A1_more; row_A2] w0 empty_store t0 eq_refl)).
Defined.
